(** * Recommendation engine of workspace-init-mcp (agent-skills registry)

    Shallow embedding of the agent/skill registry and of the three pure
    operations over it ([recommendAgentSkills], [searchAgentSkills],
    [listCategories]) from the agent-skills generator module.

    Modelling conventions:
    - JS strings are [String.string]; the catalog text is ASCII except one
      em dash, written here in UTF-8.  [toLowerCase] is modelled on ASCII
      letters (A-Z); every other character is left unchanged.
    - JS numbers used as scores, priorities and caps are [Z].
    - An optional option field that is [undefined] is [None]; the
      destructuring defaults of the source are applied explicitly. *)

From Stdlib Require Import String Ascii List ZArith Lia Bool Sorting.Permutation Sorting.Sorted.
Import ListNotations.
Open Scope string_scope.
Open Scope Z_scope.

(** ** String primitives *)

(** ASCII case folding of one character, as [toLowerCase] does on A-Z. *)
Definition lower_char (c : ascii) : ascii :=
  let n := nat_of_ascii c in
  if (65 <=? n)%nat && (n <=? 90)%nat then ascii_of_nat (n + 32) else c.

(** [s.toLowerCase()] *)
Fixpoint toLowerCase (s : string) : string :=
  match s with
  | EmptyString => EmptyString
  | String c s' => String (lower_char c) (toLowerCase s')
  end.

(** [s.includes(q)]: [q] occurs in [s] at some position. *)
Fixpoint includes (s q : string) : bool :=
  prefix q s ||
  match s with
  | EmptyString => false
  | String _ s' => includes s' q
  end.

(** [xs.includes(x)] on an array of strings (SameValueZero on strings). *)
Definition array_includes (xs : list string) (x : string) : bool :=
  existsb (String.eqb x) xs.

(** [xs.slice(0, n)] for an integer [n]; a negative end counts from the
    end of the array. *)
Definition slice0 {A} (n : Z) (xs : list A) : list A :=
  if n <? 0
  then firstn (Z.to_nat (Z.of_nat (length xs) + n)) xs
  else firstn (Z.to_nat n) xs.

(** ** Data model *)

Record AgentEntry := {
  id : string;
  name : string;
  description : string;
  categories : list string;
  tags : list string;
  relevantProjectTypes : list string;
  techKeywords : list string;
  priority : Z
}.

(** [SkillEntry] has the same field names as [AgentEntry]; Rocq records in
    one name space cannot share projections, so they carry an [s_] prefix. *)
Record SkillEntry := {
  s_id : string;
  s_name : string;
  s_description : string;
  s_categories : list string;
  s_tags : list string;
  s_relevantProjectTypes : list string;
  s_techKeywords : list string;
  hasResources : bool;
  s_priority : Z
}.

(** ** The registries ([AGENT_REGISTRY], [SKILL_REGISTRY]) *)

Definition AGENT_REGISTRY : list AgentEntry := [
  {| id := "plan";
     name := "Plan Mode";
     description := "Strategic planning and architecture assistant focused on thoughtful analysis before implementation";
     categories := ["planning"];
     tags := ["planning"; "strategy"; "analysis"; "think-first"];
     relevantProjectTypes := ["*"];
     techKeywords := [];
     priority := 1 |};
  {| id := "planner";
     name := "Planner";
     description := "Task planning and breakdown assistant";
     categories := ["planning"];
     tags := ["planning"; "task-breakdown"; "workflow"];
     relevantProjectTypes := ["*"];
     techKeywords := [];
     priority := 1 |};
  {| id := "task-planner";
     name := "Task Planner";
     description := "Detailed task planning with dependency tracking";
     categories := ["planning"];
     tags := ["planning"; "tasks"; "dependencies"];
     relevantProjectTypes := ["*"];
     techKeywords := [];
     priority := 2 |};
  {| id := "context-architect";
     name := "Context Architect";
     description := "Plans and executes multi-file changes by identifying relevant context and dependencies";
     categories := ["architecture"; "planning"];
     tags := ["architecture"; "context-map"; "dependencies"; "multi-file"];
     relevantProjectTypes := ["*"];
     techKeywords := [];
     priority := 1 |};
  {| id := "repo-architect";
     name := "Repo Architect";
     description := "Bootstraps and validates agentic project structures for GitHub Copilot workflows";
     categories := ["architecture"; "meta"];
     tags := ["scaffolding"; "repo-structure"; "agents"; "skills"];
     relevantProjectTypes := ["*"];
     techKeywords := [];
     priority := 1 |};
  {| id := "arch";
     name := "Architecture";
     description := "Software architecture design and review";
     categories := ["architecture"];
     tags := ["architecture"; "design-patterns"; "system-design"];
     relevantProjectTypes := ["web-app"; "api"; "library"; "monorepo"];
     techKeywords := [];
     priority := 1 |};
  {| id := "blueprint-mode";
     name := "Blueprint Mode";
     description := "Comprehensive project blueprint generation";
     categories := ["architecture"; "planning"];
     tags := ["blueprint"; "architecture"; "comprehensive"];
     relevantProjectTypes := ["*"];
     techKeywords := [];
     priority := 2 |};
  {| id := "implementation-plan";
     name := "Implementation Plan";
     description := "Detailed implementation planning for features and changes";
     categories := ["planning"];
     tags := ["implementation"; "planning"; "features"];
     relevantProjectTypes := ["*"];
     techKeywords := [];
     priority := 2 |};
  {| id := "principal-software-engineer";
     name := "Principal Software Engineer";
     description := "Principal-level engineering guidance with focus on engineering excellence and pragmatic implementation";
     categories := ["engineering"; "review"];
     tags := ["best-practices"; "clean-code"; "solid"; "design-patterns"; "tech-debt"];
     relevantProjectTypes := ["*"];
     techKeywords := [];
     priority := 1 |};
  {| id := "software-engineer-agent-v1";
     name := "Software Engineer Agent";
     description := "General-purpose software engineering assistant";
     categories := ["engineering"];
     tags := ["coding"; "implementation"; "general"];
     relevantProjectTypes := ["*"];
     techKeywords := [];
     priority := 2 |};
  {| id := "expert-nextjs-developer";
     name := "Expert Next.js Developer";
     description := "Specialized Next.js development assistance";
     categories := ["engineering"; "frontend"];
     tags := ["nextjs"; "react"; "ssr"; "fullstack"];
     relevantProjectTypes := ["web-app"];
     techKeywords := ["Next.js"; "React"; "TypeScript"];
     priority := 2 |};
  {| id := "expert-react-frontend-engineer";
     name := "Expert React Frontend Engineer";
     description := "Expert React frontend development";
     categories := ["engineering"; "frontend"];
     tags := ["react"; "frontend"; "components"; "state-management"];
     relevantProjectTypes := ["web-app"];
     techKeywords := ["React"; "TypeScript"; "JavaScript"];
     priority := 2 |};
  {| id := "expert-cpp-software-engineer";
     name := "Expert C++ Software Engineer";
     description := "C++ development expertise";
     categories := ["engineering"];
     tags := ["cpp"; "systems"; "performance"];
     relevantProjectTypes := ["library"];
     techKeywords := ["C++"];
     priority := 3 |};
  {| id := "expert-dotnet-software-engineer";
     name := "Expert .NET Software Engineer";
     description := ".NET development expertise";
     categories := ["engineering"];
     tags := ["dotnet"; "csharp"; "aspnet"];
     relevantProjectTypes := ["web-app"; "api"];
     techKeywords := [".NET"; "C#"; "ASP.NET"];
     priority := 2 |};
  {| id := "api-architect";
     name := "API Architect";
     description := "API design and architecture specialist";
     categories := ["architecture"; "backend"];
     tags := ["api"; "rest"; "graphql"; "openapi"];
     relevantProjectTypes := ["api"];
     techKeywords := [];
     priority := 1 |};
  {| id := "debug";
     name := "Debug Mode";
     description := "Systematic debugging with 4-phase approach: assess, investigate, resolve, QA";
     categories := ["debugging"];
     tags := ["debugging"; "troubleshooting"; "root-cause"];
     relevantProjectTypes := ["*"];
     techKeywords := [];
     priority := 1 |};
  {| id := "playwright-tester";
     name := "Playwright Tester";
     description := "E2E testing with Playwright";
     categories := ["testing"];
     tags := ["e2e"; "playwright"; "browser-testing"];
     relevantProjectTypes := ["web-app"];
     techKeywords := ["Playwright"; "TypeScript"];
     priority := 2 |};
  {| id := "polyglot-test-builder";
     name := "Polyglot Test Builder";
     description := "Multi-language test generation and management";
     categories := ["testing"];
     tags := ["testing"; "polyglot"; "multi-language"];
     relevantProjectTypes := ["*"];
     techKeywords := [];
     priority := 2 |};
  {| id := "tdd-red";
     name := "TDD Red Phase";
     description := "Write failing tests first (Red phase of TDD)";
     categories := ["testing"];
     tags := ["tdd"; "red"; "test-first"];
     relevantProjectTypes := ["*"];
     techKeywords := [];
     priority := 2 |};
  {| id := "tdd-green";
     name := "TDD Green Phase";
     description := "Make tests pass with minimal code (Green phase of TDD)";
     categories := ["testing"];
     tags := ["tdd"; "green"; "implementation"];
     relevantProjectTypes := ["*"];
     techKeywords := [];
     priority := 2 |};
  {| id := "tdd-refactor";
     name := "TDD Refactor Phase";
     description := "Refactor code while keeping tests green";
     categories := ["testing"];
     tags := ["tdd"; "refactor"; "clean-code"];
     relevantProjectTypes := ["*"];
     techKeywords := [];
     priority := 2 |};
  {| id := "devops-expert";
     name := "DevOps Expert";
     description := "DevOps specialist following the infinity loop principle with focus on automation";
     categories := ["devops"];
     tags := ["devops"; "cicd"; "automation"; "monitoring"; "dora"];
     relevantProjectTypes := ["devops"; "api"; "web-app"];
     techKeywords := ["Docker"; "Kubernetes"; "Terraform"];
     priority := 1 |};
  {| id := "platform-sre-kubernetes";
     name := "Platform SRE Kubernetes";
     description := "Kubernetes platform engineering and SRE";
     categories := ["devops"; "cloud"];
     tags := ["kubernetes"; "sre"; "platform"; "reliability"];
     relevantProjectTypes := ["devops"];
     techKeywords := ["Kubernetes"; "Docker"];
     priority := 2 |};
  {| id := "github-actions-expert";
     name := "GitHub Actions Expert";
     description := "GitHub Actions CI/CD pipeline specialist";
     categories := ["devops"];
     tags := ["github-actions"; "cicd"; "workflows"];
     relevantProjectTypes := ["*"];
     techKeywords := ["GitHub Actions"];
     priority := 2 |};
  {| id := "terraform";
     name := "Terraform";
     description := "Terraform infrastructure as code specialist";
     categories := ["devops"; "cloud"];
     tags := ["terraform"; "iac"; "infrastructure"];
     relevantProjectTypes := ["devops"];
     techKeywords := ["Terraform"; "HCL"];
     priority := 2 |};
  {| id := "se-technical-writer";
     name := "Technical Writer";
     description := "Technical documentation writing specialist";
     categories := ["documentation"];
     tags := ["documentation"; "technical-writing"; "api-docs"];
     relevantProjectTypes := ["*"];
     techKeywords := [];
     priority := 1 |};
  {| id := "gem-documentation-writer";
     name := "Documentation Writer";
     description := "Documentation generation and management";
     categories := ["documentation"];
     tags := ["documentation"; "writing"; "markdown"];
     relevantProjectTypes := ["*"];
     techKeywords := [];
     priority := 2 |};
  {| id := "gem-reviewer";
     name := "Code Reviewer";
     description := "Code review assistant";
     categories := ["review"];
     tags := ["code-review"; "quality"; "standards"];
     relevantProjectTypes := ["*"];
     techKeywords := [];
     priority := 1 |};
  {| id := "se-security-reviewer";
     name := "Security Reviewer";
     description := "Security-focused code review";
     categories := ["review"; "security"];
     tags := ["security"; "review"; "vulnerabilities"];
     relevantProjectTypes := ["*"];
     techKeywords := [];
     priority := 2 |};
  {| id := "se-system-architecture-reviewer";
     name := "System Architecture Reviewer";
     description := "System architecture review and assessment";
     categories := ["review"; "architecture"];
     tags := ["architecture"; "review"; "assessment"];
     relevantProjectTypes := ["*"];
     techKeywords := [];
     priority := 2 |};
  {| id := "critical-thinking";
     name := "Critical Thinking";
     description := "Challenges assumptions and encourages deeper analysis";
     categories := ["review"];
     tags := ["critical-thinking"; "analysis"; "assumptions"];
     relevantProjectTypes := ["*"];
     techKeywords := [];
     priority := 2 |};
  {| id := "devils-advocate";
     name := "Devil's Advocate";
     description := "Challenges decisions to strengthen solutions";
     categories := ["review"];
     tags := ["devils-advocate"; "challenge"; "robustness"];
     relevantProjectTypes := ["*"];
     techKeywords := [];
     priority := 3 |};
  {| id := "prompt-engineer";
     name := "Prompt Engineer";
     description := "Analyzes and improves prompts following OpenAI best practices";
     categories := ["meta"];
     tags := ["prompt-engineering"; "optimization"; "llm"];
     relevantProjectTypes := ["*"];
     techKeywords := [];
     priority := 2 |};
  {| id := "meta-agentic-project-scaffold";
     name := "Meta Agentic Project Scaffold";
     description := "Meta-agent for pulling and organizing agentic project structures";
     categories := ["meta"];
     tags := ["meta"; "scaffolding"; "agents"; "organization"];
     relevantProjectTypes := ["*"];
     techKeywords := [];
     priority := 2 |};
  {| id := "custom-agent-foundry";
     name := "Custom Agent Foundry";
     description := "Create custom agent definitions";
     categories := ["meta"];
     tags := ["agent-creation"; "customization"; "meta"];
     relevantProjectTypes := ["*"];
     techKeywords := [];
     priority := 3 |};
  {| id := "typescript-mcp-expert";
     name := "TypeScript MCP Expert";
     description := "TypeScript MCP server development specialist";
     categories := ["engineering"; "backend"];
     tags := ["mcp"; "typescript"; "server"];
     relevantProjectTypes := ["api"; "library"];
     techKeywords := ["TypeScript"; "MCP"];
     priority := 2 |};
  {| id := "python-mcp-expert";
     name := "Python MCP Expert";
     description := "Python MCP server development specialist";
     categories := ["engineering"; "backend"];
     tags := ["mcp"; "python"; "server"];
     relevantProjectTypes := ["api"; "data-science"];
     techKeywords := ["Python"; "MCP"];
     priority := 3 |};
  {| id := "azure-principal-architect";
     name := "Azure Principal Architect";
     description := "Azure cloud architecture and best practices";
     categories := ["cloud"; "architecture"];
     tags := ["azure"; "cloud"; "architecture"; "well-architected"];
     relevantProjectTypes := ["devops"; "api"; "web-app"];
     techKeywords := ["Azure"];
     priority := 2 |};
  {| id := "ms-sql-dba";
     name := "MS SQL DBA";
     description := "Microsoft SQL Server database administration";
     categories := ["data"];
     tags := ["sql"; "database"; "mssql"; "dba"];
     relevantProjectTypes := ["api"; "data-science"];
     techKeywords := ["SQL Server"; "MSSQL"];
     priority := 3 |};
  {| id := "postgresql-dba";
     name := "PostgreSQL DBA";
     description := "PostgreSQL database administration and optimization";
     categories := ["data"];
     tags := ["postgresql"; "database"; "optimization"];
     relevantProjectTypes := ["api"; "data-science"];
     techKeywords := ["PostgreSQL"];
     priority := 3 |};
  {| id := "electron-angular-native";
     name := "Electron Angular Native";
     description := "Electron with Angular desktop application development";
     categories := ["frontend"; "engineering"];
     tags := ["electron"; "angular"; "desktop"];
     relevantProjectTypes := ["web-app"];
     techKeywords := ["Electron"; "Angular"];
     priority := 3 |};
  {| id := "dotnet-maui";
     name := ".NET MAUI";
     description := ".NET MAUI cross-platform mobile/desktop development";
     categories := ["mobile"; "engineering"];
     tags := ["maui"; "dotnet"; "mobile"; "cross-platform"];
     relevantProjectTypes := ["mobile"];
     techKeywords := [".NET"; "MAUI"];
     priority := 2 |};
  {| id := "prd";
     name := "PRD";
     description := "Product Requirements Document generator";
     categories := ["planning"; "documentation"];
     tags := ["prd"; "requirements"; "product"];
     relevantProjectTypes := ["*"];
     techKeywords := [];
     priority := 2 |};
  {| id := "specification";
     name := "Specification";
     description := "Technical specification document generator";
     categories := ["planning"; "documentation"];
     tags := ["specification"; "requirements"; "technical"];
     relevantProjectTypes := ["*"];
     techKeywords := [];
     priority := 2 |};
  {| id := "gem-orchestrator";
     name := "Orchestrator";
     description := "Multi-agent workflow orchestration";
     categories := ["meta"];
     tags := ["orchestrator"; "workflow"; "multi-agent"];
     relevantProjectTypes := ["*"];
     techKeywords := [];
     priority := 2 |};
  {| id := "gem-implementer";
     name := "Implementer";
     description := "Code implementation from plans";
     categories := ["engineering"];
     tags := ["implementation"; "coding"];
     relevantProjectTypes := ["*"];
     techKeywords := [];
     priority := 2 |};
  {| id := "gem-researcher";
     name := "Researcher";
     description := "Technical research and analysis";
     categories := ["planning"];
     tags := ["research"; "analysis"; "investigation"];
     relevantProjectTypes := ["*"];
     techKeywords := [];
     priority := 2 |};
  {| id := "4.1-Beast";
     name := "GPT-4.1 Beast Mode";
     description := "Maximum performance agent with advanced reasoning and comprehensive capabilities";
     categories := ["engineering"; "meta"];
     tags := ["beast-mode"; "advanced"; "comprehensive"; "gpt-4.1"];
     relevantProjectTypes := ["*"];
     techKeywords := [];
     priority := 3 |};
  {| id := "mentor";
     name := "Mentor";
     description := "Learning and mentorship guidance";
     categories := ["documentation"];
     tags := ["mentor"; "learning"; "guidance"; "education"];
     relevantProjectTypes := ["learning"];
     techKeywords := [];
     priority := 2 |};
  {| id := "janitor";
     name := "Janitor";
     description := "Code cleanup and maintenance";
     categories := ["review"];
     tags := ["cleanup"; "maintenance"; "refactor"];
     relevantProjectTypes := ["*"];
     techKeywords := [];
     priority := 3 |}
].

Definition SKILL_REGISTRY : list SkillEntry := [
  {| s_id := "copilot-instructions-blueprint-generator";
     s_name := "Copilot Instructions Blueprint";
     s_description := "Technology-agnostic blueprint generator for copilot-instructions.md files";
     s_categories := ["blueprint"; "project-setup"];
     s_tags := ["copilot"; "instructions"; "blueprint"; "standards"];
     s_relevantProjectTypes := ["*"];
     s_techKeywords := [];
     hasResources := false;
     s_priority := 1 |};
  {| s_id := "folder-structure-blueprint-generator";
     s_name := "Folder Structure Blueprint";
     s_description := "Analyzes and documents project folder structures with visualization";
     s_categories := ["blueprint"; "project-setup"];
     s_tags := ["folder-structure"; "blueprint"; "visualization"];
     s_relevantProjectTypes := ["*"];
     s_techKeywords := [];
     hasResources := false;
     s_priority := 1 |};
  {| s_id := "technology-stack-blueprint-generator";
     s_name := "Technology Stack Blueprint";
     s_description := "Analyzes codebases to create detailed technology stack documentation";
     s_categories := ["blueprint"; "analysis"];
     s_tags := ["tech-stack"; "blueprint"; "analysis"; "documentation"];
     s_relevantProjectTypes := ["*"];
     s_techKeywords := [];
     hasResources := false;
     s_priority := 1 |};
  {| s_id := "architecture-blueprint-generator";
     s_name := "Architecture Blueprint";
     s_description := "Generates comprehensive architecture documentation";
     s_categories := ["blueprint"];
     s_tags := ["architecture"; "blueprint"; "documentation"];
     s_relevantProjectTypes := ["*"];
     s_techKeywords := [];
     hasResources := false;
     s_priority := 1 |};
  {| s_id := "readme-blueprint-generator";
     s_name := "README Blueprint";
     s_description := "Generates comprehensive README documentation blueprints";
     s_categories := ["blueprint"; "document-gen"];
     s_tags := ["readme"; "blueprint"; "documentation"];
     s_relevantProjectTypes := ["*"];
     s_techKeywords := [];
     hasResources := false;
     s_priority := 2 |};
  {| s_id := "code-exemplars-blueprint-generator";
     s_name := "Code Exemplars Blueprint";
     s_description := "Generates code example blueprints for documentation";
     s_categories := ["blueprint"];
     s_tags := ["code-examples"; "blueprint"; "documentation"];
     s_relevantProjectTypes := ["library"];
     s_techKeywords := [];
     hasResources := false;
     s_priority := 2 |};
  {| s_id := "project-workflow-analysis-blueprint-generator";
     s_name := "Project Workflow Blueprint";
     s_description := "Analyzes and documents project workflow patterns";
     s_categories := ["blueprint"; "analysis"];
     s_tags := ["workflow"; "blueprint"; "analysis"];
     s_relevantProjectTypes := ["*"];
     s_techKeywords := [];
     hasResources := false;
     s_priority := 2 |};
  {| s_id := "create-specification";
     s_name := "Create Specification";
     s_description := "Creates specification files optimized for AI consumption";
     s_categories := ["document-gen"];
     s_tags := ["specification"; "requirements"; "ai-optimized"];
     s_relevantProjectTypes := ["*"];
     s_techKeywords := [];
     hasResources := false;
     s_priority := 1 |};
  {| s_id := "create-implementation-plan";
     s_name := "Create Implementation Plan";
     s_description := "Creates deterministic, machine-readable implementation plans";
     s_categories := ["document-gen"];
     s_tags := ["implementation"; "planning"; "tasks"];
     s_relevantProjectTypes := ["*"];
     s_techKeywords := [];
     hasResources := false;
     s_priority := 1 |};
  {| s_id := "create-readme";
     s_name := "Create README";
     s_description := "Creates professional README.md files";
     s_categories := ["document-gen"];
     s_tags := ["readme"; "documentation"; "github"];
     s_relevantProjectTypes := ["*"];
     s_techKeywords := [];
     hasResources := false;
     s_priority := 1 |};
  {| s_id := "create-agentsmd";
     s_name := "Create AGENTS.md";
     s_description := "Creates AGENTS.md — an open-format README for agents";
     s_categories := ["document-gen"; "project-setup"];
     s_tags := ["agents.md"; "agent-config"; "documentation"];
     s_relevantProjectTypes := ["*"];
     s_techKeywords := [];
     hasResources := false;
     s_priority := 1 |};
  {| s_id := "create-architectural-decision-record";
     s_name := "Create ADR";
     s_description := "Creates Architectural Decision Records for AI-optimized decision documentation";
     s_categories := ["document-gen"];
     s_tags := ["adr"; "architecture"; "decisions"];
     s_relevantProjectTypes := ["*"];
     s_techKeywords := [];
     hasResources := false;
     s_priority := 1 |};
  {| s_id := "create-llms";
     s_name := "Create LLMs.txt";
     s_description := "Creates LLMs.txt file for AI context";
     s_categories := ["document-gen"; "project-setup"];
     s_tags := ["llms.txt"; "ai-context"; "documentation"];
     s_relevantProjectTypes := ["*"];
     s_techKeywords := [];
     hasResources := false;
     s_priority := 2 |};
  {| s_id := "prd";
     s_name := "Product Requirements Document";
     s_description := "Creates Product Requirements Documents (PRD)";
     s_categories := ["document-gen"];
     s_tags := ["prd"; "requirements"; "product"];
     s_relevantProjectTypes := ["web-app"; "api"; "mobile"];
     s_techKeywords := [];
     hasResources := false;
     s_priority := 2 |};
  {| s_id := "conventional-commit";
     s_name := "Conventional Commit";
     s_description := "Generates standardized conventional commit messages";
     s_categories := ["git"];
     s_tags := ["commit"; "conventional"; "git"; "workflow"];
     s_relevantProjectTypes := ["*"];
     s_techKeywords := [];
     hasResources := false;
     s_priority := 1 |};
  {| s_id := "git-commit";
     s_name := "Git Commit";
     s_description := "Git commit message helper";
     s_categories := ["git"];
     s_tags := ["commit"; "git"];
     s_relevantProjectTypes := ["*"];
     s_techKeywords := [];
     hasResources := false;
     s_priority := 2 |};
  {| s_id := "git-flow-branch-creator";
     s_name := "Git Flow Branch Creator";
     s_description := "Creates branches following Git Flow naming conventions";
     s_categories := ["git"];
     s_tags := ["git-flow"; "branching"; "naming"];
     s_relevantProjectTypes := ["*"];
     s_techKeywords := [];
     hasResources := false;
     s_priority := 2 |};
  {| s_id := "generate-custom-instructions-from-codebase";
     s_name := "Generate Custom Instructions";
     s_description := "Generates migration/evolution instructions by analyzing codebase differences";
     s_categories := ["code-gen"; "migration"];
     s_tags := ["instructions"; "migration"; "evolution"; "codebase-analysis"];
     s_relevantProjectTypes := ["*"];
     s_techKeywords := [];
     hasResources := false;
     s_priority := 1 |};
  {| s_id := "typescript-mcp-server-generator";
     s_name := "TypeScript MCP Server Generator";
     s_description := "Generates TypeScript MCP server scaffolding";
     s_categories := ["mcp"; "code-gen"];
     s_tags := ["mcp"; "typescript"; "server"; "scaffolding"];
     s_relevantProjectTypes := ["api"; "library"];
     s_techKeywords := ["TypeScript"; "MCP"];
     hasResources := false;
     s_priority := 2 |};
  {| s_id := "python-mcp-server-generator";
     s_name := "Python MCP Server Generator";
     s_description := "Generates Python MCP server scaffolding";
     s_categories := ["mcp"; "code-gen"];
     s_tags := ["mcp"; "python"; "server"];
     s_relevantProjectTypes := ["api"; "data-science"];
     s_techKeywords := ["Python"; "MCP"];
     hasResources := false;
     s_priority := 3 |};
  {| s_id := "create-spring-boot-java-project";
     s_name := "Spring Boot Java Project";
     s_description := "Creates Spring Boot Java project scaffolding";
     s_categories := ["code-gen"];
     s_tags := ["spring-boot"; "java"; "scaffolding"];
     s_relevantProjectTypes := ["api"; "web-app"];
     s_techKeywords := ["Java"; "Spring Boot"];
     hasResources := false;
     s_priority := 3 |};
  {| s_id := "create-spring-boot-kotlin-project";
     s_name := "Spring Boot Kotlin Project";
     s_description := "Creates Spring Boot Kotlin project scaffolding";
     s_categories := ["code-gen"];
     s_tags := ["spring-boot"; "kotlin"; "scaffolding"];
     s_relevantProjectTypes := ["api"];
     s_techKeywords := ["Kotlin"; "Spring Boot"];
     hasResources := false;
     s_priority := 3 |};
  {| s_id := "create-web-form";
     s_name := "Create Web Form";
     s_description := "Generates web form components";
     s_categories := ["code-gen"];
     s_tags := ["form"; "web"; "components"];
     s_relevantProjectTypes := ["web-app"];
     s_techKeywords := ["HTML"; "CSS"; "JavaScript"];
     hasResources := false;
     s_priority := 3 |};
  {| s_id := "playwright-generate-test";
     s_name := "Playwright Test Generator";
     s_description := "Generates Playwright E2E test scenarios";
     s_categories := ["testing"];
     s_tags := ["playwright"; "e2e"; "test-generation"];
     s_relevantProjectTypes := ["web-app"];
     s_techKeywords := ["Playwright"; "TypeScript"];
     hasResources := false;
     s_priority := 2 |};
  {| s_id := "polyglot-test-agent";
     s_name := "Polyglot Test Agent";
     s_description := "Multi-language test generation";
     s_categories := ["testing"];
     s_tags := ["testing"; "polyglot"; "multi-language"];
     s_relevantProjectTypes := ["*"];
     s_techKeywords := [];
     hasResources := true;
     s_priority := 2 |};
  {| s_id := "pytest-coverage";
     s_name := "Pytest Coverage";
     s_description := "Python test coverage analysis with pytest";
     s_categories := ["testing"];
     s_tags := ["pytest"; "coverage"; "python"];
     s_relevantProjectTypes := ["api"; "data-science"];
     s_techKeywords := ["Python"; "pytest"];
     hasResources := false;
     s_priority := 3 |};
  {| s_id := "webapp-testing";
     s_name := "Web App Testing";
     s_description := "Web application testing strategy and execution";
     s_categories := ["testing"];
     s_tags := ["testing"; "web"; "strategy"];
     s_relevantProjectTypes := ["web-app"];
     s_techKeywords := [];
     hasResources := false;
     s_priority := 2 |};
  {| s_id := "multi-stage-dockerfile";
     s_name := "Multi-Stage Dockerfile";
     s_description := "Creates optimized multi-stage Dockerfiles";
     s_categories := ["devops"; "infrastructure"];
     s_tags := ["docker"; "dockerfile"; "multi-stage"; "optimization"];
     s_relevantProjectTypes := ["devops"; "api"; "web-app"];
     s_techKeywords := ["Docker"];
     hasResources := false;
     s_priority := 2 |};
  {| s_id := "devops-rollout-plan";
     s_name := "DevOps Rollout Plan";
     s_description := "Creates deployment rollout plans";
     s_categories := ["devops"];
     s_tags := ["deployment"; "rollout"; "planning"];
     s_relevantProjectTypes := ["devops"];
     s_techKeywords := [];
     hasResources := false;
     s_priority := 2 |};
  {| s_id := "containerize-aspnetcore";
     s_name := "Containerize ASP.NET Core";
     s_description := "Containerizes ASP.NET Core applications";
     s_categories := ["devops"];
     s_tags := ["container"; "docker"; "aspnet"];
     s_relevantProjectTypes := ["api"; "web-app"];
     s_techKeywords := ["ASP.NET"; ".NET"; "Docker"];
     hasResources := false;
     s_priority := 3 |};
  {| s_id := "refactor";
     s_name := "Refactor";
     s_description := "Code refactoring guidance and execution";
     s_categories := ["refactor"];
     s_tags := ["refactor"; "code-quality"; "improvement"];
     s_relevantProjectTypes := ["*"];
     s_techKeywords := [];
     hasResources := false;
     s_priority := 1 |};
  {| s_id := "refactor-plan";
     s_name := "Refactor Plan";
     s_description := "Creates refactoring plans";
     s_categories := ["refactor"];
     s_tags := ["refactor"; "planning"; "strategy"];
     s_relevantProjectTypes := ["*"];
     s_techKeywords := [];
     hasResources := false;
     s_priority := 2 |};
  {| s_id := "context-map";
     s_name := "Context Map";
     s_description := "Creates context maps for codebases";
     s_categories := ["analysis"];
     s_tags := ["context"; "mapping"; "understanding"];
     s_relevantProjectTypes := ["*"];
     s_techKeywords := [];
     hasResources := false;
     s_priority := 1 |};
  {| s_id := "what-context-needed";
     s_name := "What Context Needed";
     s_description := "Identifies what context is needed for a task";
     s_categories := ["analysis"];
     s_tags := ["context"; "analysis"; "planning"];
     s_relevantProjectTypes := ["*"];
     s_techKeywords := [];
     hasResources := false;
     s_priority := 2 |};
  {| s_id := "prompt-builder";
     s_name := "Prompt Builder";
     s_description := "Builds and optimizes prompts";
     s_categories := ["prompt"];
     s_tags := ["prompt"; "optimization"; "engineering"];
     s_relevantProjectTypes := ["*"];
     s_techKeywords := [];
     hasResources := false;
     s_priority := 2 |};
  {| s_id := "boost-prompt";
     s_name := "Boost Prompt";
     s_description := "Enhances and improves existing prompts";
     s_categories := ["prompt"];
     s_tags := ["prompt"; "enhancement"; "improvement"];
     s_relevantProjectTypes := ["*"];
     s_techKeywords := [];
     hasResources := false;
     s_priority := 3 |};
  {| s_id := "editorconfig";
     s_name := "EditorConfig";
     s_description := "Creates .editorconfig files for consistent coding styles";
     s_categories := ["project-setup"];
     s_tags := ["editorconfig"; "coding-style"; "consistency"];
     s_relevantProjectTypes := ["*"];
     s_techKeywords := [];
     hasResources := false;
     s_priority := 1 |};
  {| s_id := "create-github-action-workflow-specification";
     s_name := "GitHub Actions Workflow";
     s_description := "Creates GitHub Actions workflow specifications";
     s_categories := ["devops"; "project-setup"];
     s_tags := ["github-actions"; "ci"; "workflow"];
     s_relevantProjectTypes := ["*"];
     s_techKeywords := ["GitHub Actions"];
     hasResources := false;
     s_priority := 2 |};
  {| s_id := "finalize-agent-prompt";
     s_name := "Finalize Agent Prompt";
     s_description := "Finalizes and polishes agent prompt definitions";
     s_categories := ["prompt"; "project-setup"];
     s_tags := ["agent"; "prompt"; "finalization"];
     s_relevantProjectTypes := ["*"];
     s_techKeywords := [];
     hasResources := false;
     s_priority := 2 |};
  {| s_id := "dotnet-upgrade";
     s_name := ".NET Upgrade";
     s_description := ".NET framework/version upgrade assistance";
     s_categories := ["migration"];
     s_tags := ["dotnet"; "upgrade"; "migration"];
     s_relevantProjectTypes := ["web-app"; "api"];
     s_techKeywords := [".NET"; "C#"];
     hasResources := false;
     s_priority := 3 |};
  {| s_id := "excalidraw-diagram-generator";
     s_name := "Excalidraw Diagram Generator";
     s_description := "Generates Excalidraw diagrams with templates for various diagram types";
     s_categories := ["document-gen"];
     s_tags := ["excalidraw"; "diagrams"; "visualization"];
     s_relevantProjectTypes := ["*"];
     s_techKeywords := [];
     hasResources := true;
     s_priority := 3 |};
  {| s_id := "aspire";
     s_name := ".NET Aspire";
     s_description := ".NET Aspire cloud-native application development";
     s_categories := ["platform"];
     s_tags := ["aspire"; "dotnet"; "cloud-native"];
     s_relevantProjectTypes := ["api"; "web-app"];
     s_techKeywords := [".NET"; "Aspire"];
     hasResources := true;
     s_priority := 3 |}
].

(** ** Recommendation engine ([recommendAgentSkills]) *)

(** The options object; [None] is an absent ([undefined]) property. *)
Record RecommendOptions := {
  o_projectType : option string;
  o_techStack : option (list string);
  o_userIntent : option string;
  o_maxAgents : option Z;
  o_maxSkills : option Z
}.

(** The destructuring [const { projectType = "other", ... } = options]. *)
Definition projectType_of (o : RecommendOptions) : string :=
  match o_projectType o with Some p => p | None => "other" end.
Definition techStack_of (o : RecommendOptions) : list string :=
  match o_techStack o with Some t => t | None => [] end.
Definition userIntent_of (o : RecommendOptions) : string :=
  match o_userIntent o with Some u => u | None => "" end.
Definition maxAgents_of (o : RecommendOptions) : Z :=
  match o_maxAgents o with Some m => m | None => 10 end.
Definition maxSkills_of (o : RecommendOptions) : Z :=
  match o_maxSkills o with Some m => m | None => 15 end.

(** [techLower.some((t) => t.includes(kw) || kw.includes(t))] with
    [kw = keyword.toLowerCase()]. *)
Definition tech_match (techLower : list string) (keyword : string) : bool :=
  let kw := toLowerCase keyword in
  existsb (fun t => includes t kw || includes kw t) techLower.

(** The body of the [map] callback that scores one entry.  The source
    repeats the same code for agents and for skills; it reads only the
    entry's [relevantProjectTypes], [techKeywords], [tags] and
    [priority], which are passed here. *)
Definition score_entry (projectType : string) (techLower : list string)
    (intentLower : string) (relevantProjectTypes techKeywords tags : list string)
    (priority : Z) : Z :=
  let score := 0 in
  (* Project type match *)
  let score :=
    if array_includes relevantProjectTypes "*"
       || array_includes relevantProjectTypes projectType
    then score + 10 else score in
  (* Tech stack match *)
  let score :=
    fold_left (fun score keyword =>
                 if tech_match techLower keyword then score + 5 else score)
              techKeywords score in
  (* Intent/tag match *)
  let score :=
    fold_left (fun score tag =>
                 if includes intentLower tag then score + 3 else score)
              tags score in
  (* Priority bonus *)
  score + (4 - priority) * 2.

Definition intentLower_of (o : RecommendOptions) : string :=
  toLowerCase (userIntent_of o).
Definition techLower_of (o : RecommendOptions) : list string :=
  map toLowerCase (techStack_of o).

Definition agent_score (o : RecommendOptions) (a : AgentEntry) : Z :=
  score_entry (projectType_of o) (techLower_of o) (intentLower_of o)
    (relevantProjectTypes a) (techKeywords a) (tags a) (priority a).

Definition skill_score (o : RecommendOptions) (s : SkillEntry) : Z :=
  score_entry (projectType_of o) (techLower_of o) (intentLower_of o)
    (s_relevantProjectTypes s) (s_techKeywords s) (s_tags s) (s_priority s).

(** [.sort((a, b) => b.score - a.score)].  [Array.prototype.sort] is
    stable (ECMAScript 2019), and a stable sort by a total preorder has a
    unique result, which this insertion sort computes: an element goes in
    front of the first element whose score is not larger than its own, so
    that elements of equal score keep their input order. *)
Fixpoint insert_desc {A} (x : A * Z) (l : list (A * Z)) : list (A * Z) :=
  match l with
  | [] => [x]
  | y :: l' => if snd y <=? snd x then x :: y :: l' else y :: insert_desc x l'
  end.

Fixpoint sort_desc {A} (l : list (A * Z)) : list (A * Z) :=
  match l with
  | [] => []
  | x :: l' => insert_desc x (sort_desc l')
  end.

(** [.filter((s) => s.score > 0).sort(...).slice(0, max).map((s) => s.entry)]
    applied to [REGISTRY.map((entry) => ({ entry, score }))]. *)
Definition rank {A} (score : A -> Z) (max : Z) (registry : list A) : list A :=
  map fst
    (slice0 max
       (sort_desc
          (filter (fun s => 0 <? snd s)
             (map (fun e => (e, score e)) registry)))).

(** The result, without the rendered [summary] string. *)
Record RecommendationResult (A S : Type) := {
  agents : list A;
  skills : list S
}.
Arguments agents {A S}.
Arguments skills {A S}.
Arguments Build_RecommendationResult {A S}.

Definition recommendAgentSkills (o : RecommendOptions)
    : RecommendationResult AgentEntry SkillEntry :=
  {| agents := rank (agent_score o) (maxAgents_of o) AGENT_REGISTRY;
     skills := rank (skill_score o) (maxSkills_of o) SKILL_REGISTRY |}.

(** ** Free-text search ([searchAgentSkills]) *)

Definition agent_matches (q : string) (a : AgentEntry) : bool :=
  includes (toLowerCase (name a)) q
  || includes (toLowerCase (description a)) q
  || existsb (fun t => includes t q) (tags a)
  || existsb (fun c => includes c q) (categories a).

Definition skill_matches (q : string) (s : SkillEntry) : bool :=
  includes (toLowerCase (s_name s)) q
  || includes (toLowerCase (s_description s)) q
  || existsb (fun t => includes t q) (s_tags s)
  || existsb (fun c => includes c q) (s_categories s).

Definition searchAgentSkills (query : string)
    : RecommendationResult AgentEntry SkillEntry :=
  let q := toLowerCase query in
  {| agents := filter (agent_matches q) AGENT_REGISTRY;
     skills := filter (skill_matches q) SKILL_REGISTRY |}.

(** ** Category index ([listCategories]) *)

(** [set.add(c)] on a JS [Set], kept as its insertion-ordered list. *)
Definition set_add (set : list string) (c : string) : list string :=
  if array_includes set c then set else set ++ [c].

(** [for (const a of REGISTRY) a.categories.forEach((c) => set.add(c))] *)
Definition collect_categories {A} (cats : A -> list string) (registry : list A)
    : list string :=
  fold_left (fun set a => fold_left set_add (cats a) set) registry [].

(** [[...set].sort()]: the default comparator orders strings by code
    units; on the (ASCII) category names this is [String.compare].  The
    sort is stable; insertion sort gives the same result. *)
Fixpoint insert_str (x : string) (l : list string) : list string :=
  match l with
  | [] => [x]
  | y :: l' => if String.leb x y then x :: y :: l' else y :: insert_str x l'
  end.

Fixpoint sort_str (l : list string) : list string :=
  match l with
  | [] => []
  | x :: l' => insert_str x (sort_str l')
  end.

Definition listCategories : list string * list string :=
  (sort_str (collect_categories categories AGENT_REGISTRY),
   sort_str (collect_categories s_categories SKILL_REGISTRY)).

(** ** Specification-side predicates *)

(** [x] is a substring of [y]. *)
Definition is_substring (x y : string) : Prop :=
  exists p r, y = p ++ x ++ r.

(** [x] occurs strictly before [y] in [l]. *)
Definition before {A} (x y : A) (l : list A) : Prop :=
  exists l1 l2 l3, l = (l1 ++ x :: l2 ++ y :: l3)%list.

(** Whether the project-type signal's wildcard sentinel is present. *)
Definition wildcard (rpt : list string) : bool := array_includes rpt "*".

(** Boolean checks evaluated on the static registries. *)
Fixpoint nodup_str (l : list string) : bool :=
  match l with
  | [] => true
  | x :: l' => negb (array_includes l' x) && nodup_str l'
  end.

Fixpoint sorted_lt_str (l : list string) : bool :=
  match l with
  | x :: (y :: _) as l' => String.ltb x y && sorted_lt_str l'
  | _ => true
  end.

(** The descriptor of the spec's priority-only scenario. *)
Definition opts_unknown : RecommendOptions :=
  {| o_projectType := Some "unknown-type"; o_techStack := Some [];
     o_userIntent := Some ""; o_maxAgents := Some 100; o_maxSkills := Some 100 |}.

(** The order produced for [opts_unknown]: the score is then
    [10 * (wildcard ? 1 : 0) + (4 - priority) * 2], i.e. 16, 14, 12 for
    wildcard entries of priority 1, 2, 3 and 6, 4, 2 for the others; each
    group keeps declaration order. *)
Definition unknown_type_order {A} (wild : A -> bool) (prio : A -> Z) (l : list A)
    : list A :=
  let tier w p := filter (fun a => Bool.eqb (wild a) w && (prio a =? p)) l in
  (tier true 1 ++ tier true 2 ++ tier true 3 ++
   tier false 1 ++ tier false 2 ++ tier false 3)%list.

(** The lower-cased query [q] occurs in the lower-cased name,
    description, some tag or some category of an entry. *)
Definition mentions (q : string) (nm desc : string) (tgs cats : list string) : Prop :=
  is_substring q (toLowerCase nm) \/ is_substring q (toLowerCase desc) \/
  (exists t, In t tgs /\ is_substring q (toLowerCase t)) \/
  (exists c, In c cats /\ is_substring q (toLowerCase c)).

(** Defaults for [nth] on the registries. *)
Definition agent_default : AgentEntry :=
  {| id := ""; name := ""; description := ""; categories := []; tags := [];
     relevantProjectTypes := []; techKeywords := []; priority := 0 |}.
Definition skill_default : SkillEntry :=
  {| s_id := ""; s_name := ""; s_description := ""; s_categories := []; s_tags := [];
     s_relevantProjectTypes := []; s_techKeywords := []; hasResources := false;
     s_priority := 0 |}.

(** [recommendAgentSkills({})]: every option left to its default. *)
Definition no_options : RecommendOptions :=
  {| o_projectType := None; o_techStack := None; o_userIntent := None;
     o_maxAgents := None; o_maxSkills := None |}.

(** The same request with both caps replaced. *)
Definition with_caps (o : RecommendOptions) (ma ms : Z) : RecommendOptions :=
  {| o_projectType := o_projectType o; o_techStack := o_techStack o;
     o_userIntent := o_userIntent o; o_maxAgents := Some ma; o_maxSkills := Some ms |}.

(** ** Agent-skills file generator ([generators/agent-skills.ts])

    [GeneratedFile] from [types.ts].  The markdown bodies ([buildSkillMd],
    [buildAgentMd] and the body of [generateSkillsIndex]) are string
    templates; they are parameters here, so what is proved about paths,
    order and counts holds whatever text they produce. *)
Record GeneratedFile := {
  relativePath : string;
  content : string
}.

(** The fields of [WorkspaceInitParams] that [generateAgentSkills] and
    the agent-skills step of [collectFiles] read; [purpose] is a required
    string, the others are optional. *)
Record WorkspaceInitParams := {
  workspaceName : string;
  purpose : string;
  p_projectType : option string;
  p_techStack : option (list string);
  includeAgentSkills : option bool;
  agentSkillsIntent : option string
}.

(** The optional [options] argument of [generateAgentSkills].  [skillIds]
    and [agentIds] are declared there but never read. *)
Record GenerateOptions := {
  g_skillIds : option (list string);
  g_agentIds : option (list string);
  g_userIntent : option string;
  g_maxAgents : option Z;
  g_maxSkills : option Z
}.

(** [a ?? b] *)
Definition nullish {A} (a : option A) (b : A) : A :=
  match a with Some x => x | None => b end.

(** [options?.f]: [undefined] when [options] is. *)
Definition opt_field {A} (f : GenerateOptions -> option A) (options : option GenerateOptions)
    : option A :=
  match options with Some op => f op | None => None end.

(** The argument passed to [recommendAgentSkills]. *)
Definition generate_request (params : WorkspaceInitParams)
    (options : option GenerateOptions) : RecommendOptions :=
  {| o_projectType := Some (nullish (p_projectType params) "other");
     o_techStack := Some (nullish (p_techStack params) []);
     o_userIntent := Some (nullish (opt_field g_userIntent options) (purpose params));
     o_maxAgents := Some (nullish (opt_field g_maxAgents options) 8);
     o_maxSkills := Some (nullish (opt_field g_maxSkills options) 12) |}.

Definition skill_file_path (skill : SkillEntry) : string :=
  ".github/skills/" ++ s_id skill ++ "/SKILL.md".

Definition agent_file_path (agent : AgentEntry) : string :=
  ".github/agents/" ++ id agent ++ ".agent.md".

Definition generateSkillsIndex
    (indexBody : list AgentEntry -> list SkillEntry -> WorkspaceInitParams -> string)
    (agents : list AgentEntry) (skills : list SkillEntry)
    (params : WorkspaceInitParams) : GeneratedFile :=
  {| relativePath := ".github/AGENT-SKILLS.md";
     content := indexBody agents skills params |}.

Definition generateAgentSkills
    (buildSkillMd : SkillEntry -> string) (buildAgentMd : AgentEntry -> string)
    (indexBody : list AgentEntry -> list SkillEntry -> WorkspaceInitParams -> string)
    (params : WorkspaceInitParams) (options : option GenerateOptions)
    : list GeneratedFile :=
  let r := recommendAgentSkills (generate_request params options) in
  (map (fun skill => {| relativePath := skill_file_path skill;
                        content := buildSkillMd skill |}) (skills r) ++
   map (fun agent => {| relativePath := agent_file_path agent;
                        content := buildAgentMd agent |}) (agents r) ++
   [generateSkillsIndex indexBody (agents r) (skills r) params])%list.

Definition generateSelectedSkills
    (buildSkillMd : SkillEntry -> string) (buildAgentMd : AgentEntry -> string)
    (skillEntries : list SkillEntry) (agentEntries : list AgentEntry)
    : list GeneratedFile :=
  (map (fun skill => {| relativePath := skill_file_path skill;
                        content := buildSkillMd skill |}) skillEntries ++
   map (fun agent => {| relativePath := agent_file_path agent;
                        content := buildAgentMd agent |}) agentEntries)%list.

(** Step 4 of [collectFiles] (tool [initialize_workspace]):
    [if (params.includeAgentSkills !== false)
       files.push(...generateAgentSkills(params, { userIntent: params.agentSkillsIntent }))]. *)
Definition collectFiles_agent_skills
    (buildSkillMd : SkillEntry -> string) (buildAgentMd : AgentEntry -> string)
    (indexBody : list AgentEntry -> list SkillEntry -> WorkspaceInitParams -> string)
    (params : WorkspaceInitParams) : list GeneratedFile :=
  match includeAgentSkills params with
  | Some false => []
  | _ => generateAgentSkills buildSkillMd buildAgentMd indexBody params
           (Some {| g_skillIds := None; g_agentIds := None;
                    g_userIntent := agentSkillsIntent params;
                    g_maxAgents := None; g_maxSkills := None |})
  end.

(** ** Generic lemmas *)

Lemma prefix_app (q r : string) : prefix q (q ++ r) = true.
Proof.
  induction q as [|c q IH]; simpl; [destruct r; reflexivity|].
  destruct (ascii_dec c c) as [_|n]; [exact IH|contradiction].
Qed.

Lemma prefix_spec (q s : string) : prefix q s = true <-> exists r, s = q ++ r.
Proof.
  split.
  - revert s; induction q as [|c q IH]; intros s H.
    + exists s; reflexivity.
    + destruct s as [|c' s]; simpl in H; [discriminate|].
      destruct (ascii_dec c c') as [->|]; [|discriminate].
      destruct (IH s H) as [r ->]; exists r; reflexivity.
  - intros [r ->]; apply prefix_app.
Qed.

Lemma includes_unfold (s q : string) :
  includes s q
  = prefix q s || match s with EmptyString => false | String _ s' => includes s' q end.
Proof. destruct s; reflexivity. Qed.

Lemma includes_spec (s q : string) : includes s q = true <-> is_substring q s.
Proof.
  unfold is_substring; split.
  - induction s as [|c s IH]; intros H.
    + change (prefix q "" || false = true) in H.
      rewrite orb_false_r, prefix_spec in H; destruct H as [r ->].
      exists EmptyString, r; reflexivity.
    + change (prefix q (String c s) || includes s q = true) in H.
      apply orb_true_iff in H as [H|H].
      * apply prefix_spec in H as [r ->]; exists EmptyString, r; reflexivity.
      * destruct (IH H) as [p [r ->]]; exists (String c p), r; reflexivity.
  - intros [p [r ->]]; induction p as [|c p IH].
    + change (includes (q ++ r) q = true).
      rewrite includes_unfold, prefix_app; reflexivity.
    + change (includes (String c (p ++ q ++ r)) q = true).
      rewrite includes_unfold, IH, orb_true_r; reflexivity.
Qed.

Lemma includes_empty (s : string) : includes s "" = true.
Proof. destruct s; reflexivity. Qed.

Lemma array_includes_In (xs : list string) (x : string) :
  array_includes xs x = true <-> In x xs.
Proof.
  unfold array_includes; rewrite existsb_exists; split.
  - intros [y [Hy E]]; apply String.eqb_eq in E; subst; exact Hy.
  - intros H; exists x; split; [exact H|apply String.eqb_refl].
Qed.

(** The scorer's loops add a constant for each element passing a test. *)
Lemma fold_add_count {B} (f : B -> bool) (c : Z) (l : list B) (s0 : Z) :
  fold_left (fun s k => if f k then s + c else s) l s0
  = s0 + c * Z.of_nat (length (filter f l)).
Proof.
  revert s0; induction l as [|k l IH]; intros s0; simpl; [lia|].
  rewrite IH; destruct (f k); simpl length; lia.
Qed.

Lemma score_entry_decomp pt tl il rpt kws tgs p :
  score_entry pt tl il rpt kws tgs p
  = (if array_includes rpt "*" || array_includes rpt pt then 10 else 0)
    + 5 * Z.of_nat (length (filter (tech_match tl) kws))
    + 3 * Z.of_nat (length (filter (includes il) tgs))
    + (4 - p) * 2.
Proof.
  unfold score_entry; rewrite !fold_add_count.
  destruct (_ || _); lia.
Qed.

Lemma score_entry_floor pt tl il rpt kws tgs p :
  (4 - p) * 2 <= score_entry pt tl il rpt kws tgs p.
Proof. rewrite score_entry_decomp; destruct (_ || _); lia. Qed.

Lemma nodup_str_NoDup (l : list string) : nodup_str l = true -> NoDup l.
Proof.
  induction l as [|x l IH]; simpl; intros H; constructor.
  - apply andb_true_iff in H as [H _]; intros Hin.
    apply array_includes_In in Hin; rewrite Hin in H; discriminate.
  - apply andb_true_iff in H as [_ H]; exact (IH H).
Qed.

Lemma sorted_lt_str_Sorted (l : list string) :
  sorted_lt_str l = true -> Sorted (fun x y => String.compare x y = Lt) l.
Proof.
  induction l as [|x l IH]; intros H; [constructor|].
  destruct l as [|y l]; [repeat constructor|].
  simpl in H; apply andb_true_iff in H as [Hxy H].
  constructor; [exact (IH H)|constructor].
  unfold String.ltb in Hxy; destruct (String.compare x y); congruence.
Qed.

(** ** The ranker: permutation, stability, length *)

Section Ranker.
Context {A : Type}.

Lemma insert_desc_perm (x : A * Z) (l : list (A * Z)) :
  Permutation (insert_desc x l) (x :: l).
Proof.
  induction l as [|y l IH]; simpl; [reflexivity|].
  destruct (snd y <=? snd x); [reflexivity|].
  rewrite IH; apply perm_swap.
Qed.

Lemma sort_desc_perm (l : list (A * Z)) : Permutation (sort_desc l) l.
Proof.
  induction l as [|x l IH]; simpl; [reflexivity|].
  rewrite insert_desc_perm, IH; reflexivity.
Qed.

(** Stability: among the pairs of one score [k], insertion keeps the
    inserted (earlier) pair first. *)
Lemma filter_insert_desc (k : Z) (x : A * Z) (l : list (A * Z)) :
  filter (fun p => snd p =? k) (insert_desc x l)
  = if snd x =? k then x :: filter (fun p => snd p =? k) l
    else filter (fun p => snd p =? k) l.
Proof.
  induction l as [|y l IH]; simpl.
  - destruct (snd x =? k); reflexivity.
  - destruct (snd y <=? snd x) eqn:Hyx; simpl.
    + reflexivity.
    + rewrite IH.
      destruct (snd x =? k) eqn:Hx, (snd y =? k) eqn:Hy; try reflexivity.
      apply Z.eqb_eq in Hx, Hy; apply Z.leb_gt in Hyx; lia.
Qed.

Lemma filter_sort_desc (k : Z) (l : list (A * Z)) :
  filter (fun p => snd p =? k) (sort_desc l) = filter (fun p => snd p =? k) l.
Proof.
  induction l as [|x l IH]; simpl; [reflexivity|].
  rewrite filter_insert_desc, IH; reflexivity.
Qed.
End Ranker.


Section Before.
Local Open Scope list_scope.
Context {A : Type}.

Lemma before_In_l (x y : A) l : before x y l -> In x l.
Proof.
  intros [l1 [l2 [l3 ->]]]; apply in_or_app; right; left; reflexivity.
Qed.

Lemma before_In_r (x y : A) l : before x y l -> In y l.
Proof.
  intros [l1 [l2 [l3 ->]]]; apply in_or_app; right; right.
  apply in_or_app; right; left; reflexivity.
Qed.

Lemma before_head (x y : A) l : In y l -> before x y (x :: l).
Proof.
  intros H; destruct (in_split _ _ H) as [l2 [l3 ->]].
  exists [], l2, l3; reflexivity.
Qed.

Lemma before_cons (z x y : A) l : before x y l -> before x y (z :: l).
Proof. intros [l1 [l2 [l3 ->]]]; exists (z :: l1), l2, l3; reflexivity. Qed.

Lemma before_cons_inv (z x y : A) l :
  before x y (z :: l) -> (x = z /\ In y l) \/ before x y l.
Proof.
  intros [[|w l1] [l2 [l3 H]]]; simpl in H; injection H as H1 H2.
  - left; split; [congruence|subst l].
    apply in_or_app; right; left; reflexivity.
  - right; exists l1, l2, l3; exact H2.
Qed.

Lemma before_app_r (x y : A) l m : before x y l -> before x y (l ++ m).
Proof.
  intros [l1 [l2 [l3 ->]]]; exists l1, l2, (l3 ++ m).
  rewrite <- app_assoc; simpl; rewrite <- app_assoc; reflexivity.
Qed.

Lemma before_firstn (x y : A) n l : before x y (firstn n l) -> before x y l.
Proof.
  intros H; rewrite <- (firstn_skipn n l); apply before_app_r, H.
Qed.

Lemma before_slice0 (x y : A) n l : before x y (slice0 n l) -> before x y l.
Proof. unfold slice0; destruct (n <? 0); apply before_firstn. Qed.

Lemma before_filter_inv (f : A -> bool) (x y : A) l :
  before x y (filter f l) -> before x y l.
Proof.
  induction l as [|z l IH]; simpl; intros H.
  - destruct H as [[|] [l2 [l3 H]]]; discriminate.
  - destruct (f z); [|apply before_cons, IH, H].
    apply before_cons_inv in H as [[-> Hy]|H].
    + apply before_head; apply filter_In in Hy; apply Hy.
    + apply before_cons, IH, H.
Qed.

Lemma before_filter (f : A -> bool) (x y : A) l :
  f x = true -> f y = true -> before x y l -> before x y (filter f l).
Proof.
  intros Hx Hy [l1 [l2 [l3 ->]]].
  rewrite filter_app; simpl; rewrite Hx, filter_app; simpl; rewrite Hy.
  exists (filter f l1), (filter f l2), (filter f l3); reflexivity.
Qed.

End Before.

Lemma before_map {A B} (g : A -> B) (x y : B) l :
  before x y (map g l) -> exists x' y', g x' = x /\ g y' = y /\ before x' y' l.
Proof.
  induction l as [|z l IH]; simpl; intros H.
  - destruct H as [[|] [l2 [l3 H]]]; discriminate.
  - apply before_cons_inv in H as [[-> Hy]|H].
    + apply in_map_iff in Hy as [y' [Hy' Hin]].
      exists z, y'; split; [reflexivity|split; [exact Hy'|apply before_head, Hin]].
    + destruct (IH H) as [x' [y' [Hx [Hy Hb]]]].
      exists x', y'; split; [exact Hx|split; [exact Hy|apply before_cons, Hb]].
Qed.

Section Rank.
Local Open Scope list_scope.
Context {A : Type} (score : A -> Z).

Let pairs (reg : list A) := map (fun e => (e, score e)) reg.
Let keep := fun s : A * Z => 0 <? snd s.

Lemma slice0_firstn {B} (n : Z) (l : list B) :
  0 <= n -> slice0 n l = firstn (Z.to_nat n) l.
Proof. intros H; unfold slice0; destruct (Z.ltb_spec n 0); [lia|reflexivity]. Qed.

Lemma In_slice0 {B} (x : B) n l : In x (slice0 n l) -> In x l.
Proof.
  rewrite <- (firstn_skipn (if n <? 0 then Z.to_nat (Z.of_nat (length l) + n)
                           else Z.to_nat n) l) at 2.
  unfold slice0; destruct (n <? 0); intros H; apply in_or_app; left; exact H.
Qed.

Lemma filter_keep_all (reg : list A) :
  (forall e, In e reg -> 0 < score e) -> filter keep (pairs reg) = pairs reg.
Proof.
  unfold pairs, keep; induction reg as [|e reg IH]; intros H; simpl; [reflexivity|].
  destruct (Z.ltb_spec 0 (score e)) as [_|Hn].
  - rewrite IH; [reflexivity|intros e' He'; apply H; right; exact He'].
  - specialize (H e (or_introl eq_refl)); lia.
Qed.

Lemma rank_length (max : Z) (reg : list A) :
  0 <= max -> (forall e, In e reg -> 0 < score e) ->
  length (rank score max reg) = Nat.min (length reg) (Z.to_nat max).
Proof.
  intros Hm Hpos; unfold rank; fold keep; fold (pairs reg).
  rewrite filter_keep_all by exact Hpos.
  rewrite length_map, slice0_firstn by exact Hm.
  rewrite length_firstn, (Permutation_length (sort_desc_perm _)).
  unfold pairs; rewrite length_map; apply Nat.min_comm.
Qed.

Lemma rank_all (max : Z) (reg : list A) :
  Z.of_nat (length reg) <= max -> (forall e, In e reg -> 0 < score e) ->
  Permutation (rank score max reg) reg.
Proof.
  intros Hm Hpos; unfold rank; fold keep; fold (pairs reg).
  rewrite filter_keep_all by exact Hpos.
  rewrite slice0_firstn by lia.
  rewrite firstn_all2.
  - rewrite (sort_desc_perm (pairs reg)); unfold pairs; rewrite map_map.
    simpl; rewrite map_id; reflexivity.
  - rewrite (Permutation_length (sort_desc_perm _)); unfold pairs.
    rewrite length_map; lia.
Qed.

Lemma In_rank (max : Z) (reg : list A) (a : A) :
  In a (rank score max reg) -> In a reg.
Proof.
  unfold rank; intros H; apply in_map_iff in H as [p [<- Hp]].
  apply In_slice0 in Hp.
  apply (Permutation_in _ (sort_desc_perm _)) in Hp.
  apply filter_In in Hp as [Hp _]; apply in_map_iff in Hp as [e [<- He]].
  exact He.
Qed.

Lemma NoDup_map_filter {B C} (g : B -> C) (f : B -> bool) (l : list B) :
  NoDup (map g l) -> NoDup (map g (filter f l)).
Proof.
  induction l as [|x l IH]; simpl; intros H; [constructor|].
  inversion H as [|? ? Hx Hl]; subst.
  destruct (f x); simpl; [|exact (IH Hl)].
  constructor; [|exact (IH Hl)].
  intros Hin; apply Hx; apply in_map_iff in Hin as [y [Hy Hin]].
  apply filter_In in Hin; apply in_map_iff; exists y; split; [exact Hy|apply Hin].
Qed.

Lemma NoDup_slice0 {B} n (l : list B) : NoDup l -> NoDup (slice0 n l).
Proof.
  intros H; rewrite <- (firstn_skipn (if n <? 0 then Z.to_nat (Z.of_nat (length l) + n)
                                    else Z.to_nat n) l) in H.
  unfold slice0; destruct (n <? 0); eapply NoDup_app_remove_r; exact H.
Qed.

Lemma rank_NoDup (max : Z) (reg : list A) :
  NoDup reg -> NoDup (rank score max reg).
Proof.
  intros H; unfold rank.
  assert (Hs : NoDup (map fst (sort_desc (filter keep (pairs reg))))).
  { apply (Permutation_NoDup (Permutation_map _ (Permutation_sym (sort_desc_perm _)))).
    apply NoDup_map_filter; unfold pairs; rewrite map_map; simpl; rewrite map_id; exact H. }
  unfold slice0; destruct (max <? 0); rewrite <- firstn_map;
    (eapply NoDup_app_remove_r; rewrite firstn_skipn; exact Hs).
Qed.

(** Stability of the whole pipeline: two entries of equal score come out
    in registry order. *)
Lemma rank_stable (max : Z) (reg : list A) (a b : A) :
  before b a (rank score max reg) -> score a = score b -> before b a reg.
Proof.
  intros H Hab; unfold rank in H.
  apply before_map in H as [pb [pa [<- [<- H]]]].
  apply before_slice0 in H.
  assert (Hin : forall p, In p (sort_desc (filter keep (pairs reg))) -> snd p = score (fst p)).
  { intros p Hp; apply (Permutation_in _ (sort_desc_perm _)) in Hp.
    apply filter_In in Hp as [Hp _]; apply in_map_iff in Hp as [e [<- _]]; reflexivity. }
  pose proof (Hin _ (before_In_l _ _ _ H)) as Eb.
  pose proof (Hin _ (before_In_r _ _ _ H)) as Ea.
  apply (before_filter (fun p => snd p =? snd pb)) in H;
    [|apply Z.eqb_refl|apply Z.eqb_eq; congruence].
  rewrite filter_sort_desc in H.
  apply before_filter_inv in H.
  apply before_filter_inv in H.
  unfold pairs in H; apply before_map in H as [b' [a' [Hb [Ha H]]]].
  rewrite <- Hb, <- Ha; exact H.
Qed.
End Rank.

(** ** Facts about the static registries *)

Lemma In_priorities (p : Z) :
  existsb (Z.eqb p) [1; 2; 3] = true -> In p [1; 2; 3].
Proof.
  intros H; apply existsb_exists in H as [z [Hz E]].
  apply Z.eqb_eq in E; subst; exact Hz.
Qed.

Lemma agent_priorities a : In a AGENT_REGISTRY -> In (priority a) [1; 2; 3].
Proof.
  intros Ha; apply In_priorities.
  assert (H : forallb (fun a => existsb (Z.eqb (priority a)) [1; 2; 3])
                AGENT_REGISTRY = true) by (vm_compute; reflexivity).
  rewrite forallb_forall in H; exact (H a Ha).
Qed.

Lemma skill_priorities s : In s SKILL_REGISTRY -> In (s_priority s) [1; 2; 3].
Proof.
  intros Hs; apply In_priorities.
  assert (H : forallb (fun s => existsb (Z.eqb (s_priority s)) [1; 2; 3])
                SKILL_REGISTRY = true) by (vm_compute; reflexivity).
  rewrite forallb_forall in H; exact (H s Hs).
Qed.

Lemma priority_bonus_pos (p : Z) : In p [1; 2; 3] -> 2 <= (4 - p) * 2.
Proof. intros [<-|[<-|[<-|[]]]]; lia. Qed.

Lemma agent_score_pos o a : In a AGENT_REGISTRY -> 2 <= agent_score o a.
Proof.
  intros Ha; eapply Z.le_trans; [apply priority_bonus_pos, agent_priorities, Ha|].
  apply score_entry_floor.
Qed.

Lemma skill_score_pos o s : In s SKILL_REGISTRY -> 2 <= skill_score o s.
Proof.
  intros Hs; eapply Z.le_trans; [apply priority_bonus_pos, skill_priorities, Hs|].
  apply score_entry_floor.
Qed.

Lemma agent_registry_NoDup : NoDup AGENT_REGISTRY.
Proof.
  apply (NoDup_map_inv id), nodup_str_NoDup; vm_compute; reflexivity.
Qed.

Lemma skill_registry_NoDup : NoDup SKILL_REGISTRY.
Proof.
  apply (NoDup_map_inv s_id), nodup_str_NoDup; vm_compute; reflexivity.
Qed.

(** ** Claims about [recommendAgentSkills] *)

(** C2: every entry scores at least its priority bonus [(4 - priority) * 2];
    every registry entry has priority 1, 2 or 3, so it scores at least 2
    even with no project-type, tech-stack or intent signal. *)
Theorem score_priority_floor (o : RecommendOptions) :
  (forall a : AgentEntry, (4 - priority a) * 2 <= agent_score o a) /\
  (forall s : SkillEntry, (4 - s_priority s) * 2 <= skill_score o s) /\
  (forall a, In a AGENT_REGISTRY -> In (priority a) [1; 2; 3] /\ 2 <= agent_score o a) /\
  (forall s, In s SKILL_REGISTRY -> In (s_priority s) [1; 2; 3] /\ 2 <= skill_score o s).
Proof.
  split; [intros a; apply score_entry_floor|].
  split; [intros s; apply score_entry_floor|].
  split; intros e He; split.
  - apply agent_priorities, He.
  - apply agent_score_pos, He.
  - apply skill_priorities, He.
  - apply skill_score_pos, He.
Qed.

Lemma score_priority_floor_witness :
  In (nth 0 AGENT_REGISTRY agent_default) AGENT_REGISTRY /\
  In (priority (nth 0 AGENT_REGISTRY agent_default)) [1; 2; 3] /\
  2 <= agent_score opts_unknown (nth 0 AGENT_REGISTRY agent_default).
Proof.
  assert (H : In (nth 0 AGENT_REGISTRY agent_default) AGENT_REGISTRY)
    by (apply nth_In, Nat.ltb_lt; vm_compute; reflexivity).
  split; [exact H|].
  exact (proj1 (proj2 (proj2 (score_priority_floor opts_unknown))) _ H).
Defined.

(** C1: with positive caps the [score > 0] filter keeps every pair, and the
    lists returned have lengths [min(|AGENT_REGISTRY|, maxAgents)] and
    [min(|SKILL_REGISTRY|, maxSkills)]. *)
Theorem recommend_lengths_min (o : RecommendOptions) :
  0 < maxAgents_of o -> 0 < maxSkills_of o ->
  filter (fun s => 0 <? snd s) (map (fun a => (a, agent_score o a)) AGENT_REGISTRY)
    = map (fun a => (a, agent_score o a)) AGENT_REGISTRY /\
  filter (fun s => 0 <? snd s) (map (fun s => (s, skill_score o s)) SKILL_REGISTRY)
    = map (fun s => (s, skill_score o s)) SKILL_REGISTRY /\
  length (agents (recommendAgentSkills o))
    = Nat.min (length AGENT_REGISTRY) (Z.to_nat (maxAgents_of o)) /\
  length (skills (recommendAgentSkills o))
    = Nat.min (length SKILL_REGISTRY) (Z.to_nat (maxSkills_of o)).
Proof.
  intros Ha Hs.
  assert (Pa : forall a, In a AGENT_REGISTRY -> 0 < agent_score o a)
    by (intros a H; pose proof (agent_score_pos o a H); lia).
  assert (Ps : forall s, In s SKILL_REGISTRY -> 0 < skill_score o s)
    by (intros s H; pose proof (skill_score_pos o s H); lia).
  split; [apply (filter_keep_all (agent_score o)), Pa|].
  split; [apply (filter_keep_all (skill_score o)), Ps|].
  split; simpl; apply rank_length; lia || assumption.
Qed.

Lemma recommend_lengths_min_witness :
  length (agents (recommendAgentSkills opts_unknown)) = 50%nat /\
  length (skills (recommendAgentSkills opts_unknown)) = 42%nat.
Proof.
  destruct (recommend_lengths_min opts_unknown) as [_ [_ [Ha Hs]]];
    [vm_compute; reflexivity|vm_compute; reflexivity|].
  rewrite Ha, Hs; vm_compute; split; reflexivity.
Defined.

(** C3: the ranking is stable: when an entry [b] is returned before an
    entry [a] of the same score, [b] is declared before [a] in its
    registry. *)
Theorem recommend_stable (o : RecommendOptions) :
  (forall a b : AgentEntry,
     before b a (agents (recommendAgentSkills o)) ->
     agent_score o a = agent_score o b -> before b a AGENT_REGISTRY) /\
  (forall a b : SkillEntry,
     before b a (skills (recommendAgentSkills o)) ->
     skill_score o a = skill_score o b -> before b a SKILL_REGISTRY).
Proof. split; intros a b; apply rank_stable. Qed.

Lemma recommend_stable_witness :
  before (nth 0 AGENT_REGISTRY agent_default) (nth 1 AGENT_REGISTRY agent_default)
    AGENT_REGISTRY.
Proof.
  apply (proj1 (recommend_stable opts_unknown)).
  - exists [], [], (skipn 2 (agents (recommendAgentSkills opts_unknown))).
    vm_compute; reflexivity.
  - vm_compute; reflexivity.
Defined.

(** C10: each returned list is duplicate-free and made of entries of its
    registry. *)
Theorem recommend_selection_from_registry (o : RecommendOptions) :
  NoDup (agents (recommendAgentSkills o)) /\
  (forall a, In a (agents (recommendAgentSkills o)) -> In a AGENT_REGISTRY) /\
  NoDup (skills (recommendAgentSkills o)) /\
  (forall s, In s (skills (recommendAgentSkills o)) -> In s SKILL_REGISTRY).
Proof.
  split; [apply rank_NoDup, agent_registry_NoDup|].
  split; [intros a; apply In_rank|].
  split; [apply rank_NoDup, skill_registry_NoDup|].
  intros s; apply In_rank.
Qed.

Lemma recommend_selection_from_registry_witness :
  In (nth 0 (agents (recommendAgentSkills opts_unknown)) agent_default) AGENT_REGISTRY.
Proof.
  apply (proj1 (proj2 (recommend_selection_from_registry opts_unknown))).
  apply nth_In, Nat.ltb_lt; vm_compute; reflexivity.
Defined.

(** C4 (as stated, refuted): for the descriptor [opts_unknown] the agent
    list is not ordered by the priority bonus alone: the wildcard,
    priority-2 agent [task-planner] (bonus 4) comes before the
    non-wildcard, priority-1 agent [arch] (bonus 6). *)
Lemma recommend_unknown_not_priority_order :
  let out := agents (recommendAgentSkills opts_unknown) in
  id (nth 8 out agent_default) = "task-planner" /\
  id (nth 32 out agent_default) = "arch" /\
  ~ (forall a b : AgentEntry, before a b out ->
       (4 - priority b) * 2 <= (4 - priority a) * 2).
Proof.
  intros out; split; [vm_compute; reflexivity|split; [vm_compute; reflexivity|]].
  intros H.
  specialize (H (nth 8 out agent_default) (nth 32 out agent_default)).
  assert (E1 : priority (nth 8 out agent_default) = 2) by (vm_compute; reflexivity).
  assert (E2 : priority (nth 32 out agent_default) = 1) by (vm_compute; reflexivity).
  rewrite E1, E2 in H.
  assert (B : before (nth 8 out agent_default) (nth 32 out agent_default) out).
  { exists (firstn 8 out), (firstn 23 (skipn 9 out)), (skipn 33 out).
    vm_compute; reflexivity. }
  specialize (H B); lia.
Qed.

(** C4 (amended): for [projectType "unknown-type"], an empty stack and
    intent and caps of 100, both lists hold every registry entry, ordered
    by [10 * (wildcard "*" present) + (4 - priority) * 2] descending, ties
    in declaration order; the unknown project type is not rejected. *)
Theorem recommend_unknown_type_order :
  let r := recommendAgentSkills opts_unknown in
  Permutation (agents r) AGENT_REGISTRY /\
  Permutation (skills r) SKILL_REGISTRY /\
  agents r = unknown_type_order (fun a => wildcard (relevantProjectTypes a))
               priority AGENT_REGISTRY /\
  skills r = unknown_type_order (fun s => wildcard (s_relevantProjectTypes s))
               s_priority SKILL_REGISTRY.
Proof.
  intros r; split; [|split; [|split]].
  - apply rank_all.
    + apply Z.leb_le; vm_compute; reflexivity.
    + intros a Ha; pose proof (agent_score_pos opts_unknown a Ha); lia.
  - apply rank_all.
    + apply Z.leb_le; vm_compute; reflexivity.
    + intros s Hs; pose proof (skill_score_pos opts_unknown s Hs); lia.
  - vm_compute; reflexivity.
  - vm_compute; reflexivity.
Qed.

(** ** Claims about [searchAgentSkills] *)

Lemma lower_char_idem (c : ascii) : lower_char (lower_char c) = lower_char c.
Proof. destruct c as [[] [] [] [] [] [] [] []]; reflexivity. Qed.

Lemma toLowerCase_idem (s : string) : toLowerCase (toLowerCase s) = toLowerCase s.
Proof.
  induction s as [|c s IH]; simpl; [reflexivity|].
  rewrite lower_char_idem, IH; reflexivity.
Qed.

Lemma toLowerCase_app (s1 s2 : string) :
  toLowerCase (s1 ++ s2) = toLowerCase s1 ++ toLowerCase s2.
Proof. induction s1 as [|c s1 IH]; simpl; [reflexivity|rewrite IH; reflexivity]. Qed.

(** A match found in a field is still found after lower-casing both sides. *)
Lemma includes_lower (t q : string) :
  includes t q = true -> is_substring (toLowerCase q) (toLowerCase t).
Proof.
  intros H; apply includes_spec in H as [p [r ->]].
  exists (toLowerCase p), (toLowerCase r); rewrite !toLowerCase_app; reflexivity.
Qed.

Lemma includes_lower_lower (t query : string) :
  includes t (toLowerCase query) = true ->
  is_substring (toLowerCase query) (toLowerCase t).
Proof. intros H; rewrite <- toLowerCase_idem; apply includes_lower, H. Qed.

Lemma includes_lowered (t query : string) :
  includes (toLowerCase t) (toLowerCase query) = true ->
  is_substring (toLowerCase query) (toLowerCase t).
Proof. intros H; apply includes_spec, H. Qed.

Lemma existsb_lower (xs : list string) (query : string) :
  existsb (fun t => includes t (toLowerCase query)) xs = true ->
  exists t, In t xs /\ is_substring (toLowerCase query) (toLowerCase t).
Proof.
  intros H; apply existsb_exists in H as [t [Ht H]].
  exists t; split; [exact Ht|apply includes_lower_lower, H].
Qed.

Lemma skill_matches_sound (query : string) (s : SkillEntry) :
  skill_matches (toLowerCase query) s = true ->
  mentions (toLowerCase query) (s_name s) (s_description s) (s_tags s) (s_categories s).
Proof.
  unfold skill_matches, mentions; intros H.
  repeat apply orb_true_iff in H as [H|H].
  - left; apply includes_lowered, H.
  - right; left; apply includes_lowered, H.
  - right; right; left; apply existsb_lower, H.
  - right; right; right; apply existsb_lower, H.
Qed.

Lemma agent_matches_sound (query : string) (a : AgentEntry) :
  agent_matches (toLowerCase query) a = true ->
  mentions (toLowerCase query) (name a) (description a) (tags a) (categories a).
Proof.
  unfold agent_matches, mentions; intros H.
  repeat apply orb_true_iff in H as [H|H].
  - left; apply includes_lowered, H.
  - right; left; apply includes_lowered, H.
  - right; right; left; apply existsb_lower, H.
  - right; right; right; apply existsb_lower, H.
Qed.

(** C5 (as stated, refuted): [platform-sre-kubernetes] is an agent of the
    registry, but [searchAgentSkills("docker")] does not return it: only its
    [techKeywords] mention Docker, and search does not read them. *)
Lemma search_docker_misses_platform_sre :
  In "platform-sre-kubernetes" (map id AGENT_REGISTRY) /\
  ~ In "platform-sre-kubernetes" (map id (agents (searchAgentSkills "docker"))).
Proof.
  split; [apply array_includes_In; vm_compute; reflexivity|].
  assert (E : map id (agents (searchAgentSkills "docker")) = []) by (vm_compute; reflexivity).
  rewrite E; intros [].
Qed.

(** C5 (amended): [searchAgentSkills("docker")] returns no agent and the
    skills [multi-stage-dockerfile] and [containerize-aspnetcore]; every
    entry it returns has "docker" as a substring of its lower-cased name,
    description, some tag or some category. *)
Theorem search_docker_result :
  let r := searchAgentSkills "docker" in
  agents r = [] /\
  map s_id (skills r) = ["multi-stage-dockerfile"; "containerize-aspnetcore"] /\
  (forall a, In a (agents r) ->
     mentions "docker" (name a) (description a) (tags a) (categories a)) /\
  (forall s, In s (skills r) ->
     mentions "docker" (s_name s) (s_description s) (s_tags s) (s_categories s)).
Proof.
  intros r; split; [vm_compute; reflexivity|].
  split; [vm_compute; reflexivity|].
  change "docker" with (toLowerCase "docker") at 1 2.
  unfold r, searchAgentSkills; cbn [agents skills].
  split.
  - intros a Ha.
    destruct (proj1 (filter_In (agent_matches (toLowerCase "docker")) a AGENT_REGISTRY) Ha)
      as [_ H].
    apply agent_matches_sound, H.
  - intros s Hs.
    destruct (proj1 (filter_In (skill_matches (toLowerCase "docker")) s SKILL_REGISTRY) Hs)
      as [_ H].
    apply skill_matches_sound, H.
Qed.

Lemma search_docker_result_witness :
  mentions "docker"
    (s_name (nth 0 (skills (searchAgentSkills "docker")) skill_default))
    (s_description (nth 0 (skills (searchAgentSkills "docker")) skill_default))
    (s_tags (nth 0 (skills (searchAgentSkills "docker")) skill_default))
    (s_categories (nth 0 (skills (searchAgentSkills "docker")) skill_default)).
Proof.
  apply (proj2 (proj2 (proj2 search_docker_result))).
  apply nth_In, Nat.ltb_lt; vm_compute; reflexivity.
Defined.

(** C8: with the empty query every entry matches, so both registries come
    back whole, in declaration order. *)
Lemma filter_all {A} (f : A -> bool) (l : list A) :
  (forall x, f x = true) -> filter f l = l.
Proof.
  intros H; induction l as [|x l IH]; simpl; [reflexivity|].
  rewrite H, IH; reflexivity.
Qed.

Theorem search_empty_query_all :
  agents (searchAgentSkills "") = AGENT_REGISTRY /\
  skills (searchAgentSkills "") = SKILL_REGISTRY.
Proof.
  split; apply filter_all; intros e;
    [unfold agent_matches|unfold skill_matches]; simpl toLowerCase;
    rewrite includes_empty; reflexivity.
Qed.

(** ** Claims about the scorer's signals *)

(** C6: a tech keyword matches iff, lower-cased, it is a substring of some
    lower-cased stack item or the other way round; the tech-stack signal
    adds exactly 5 per matching keyword, however many stack items it
    matches. *)
Theorem tech_keyword_signal :
  (forall (techStack : list string) (keyword : string),
     tech_match (map toLowerCase techStack) keyword = true <->
     exists t, In t techStack /\
       (is_substring (toLowerCase keyword) (toLowerCase t) \/
        is_substring (toLowerCase t) (toLowerCase keyword))) /\
  (forall o a,
     agent_score o a
     = score_entry (projectType_of o) (techLower_of o) (intentLower_of o)
         (relevantProjectTypes a) [] (tags a) (priority a)
       + 5 * Z.of_nat (length (filter (tech_match (techLower_of o)) (techKeywords a)))) /\
  (forall o s,
     skill_score o s
     = score_entry (projectType_of o) (techLower_of o) (intentLower_of o)
         (s_relevantProjectTypes s) [] (s_tags s) (s_priority s)
       + 5 * Z.of_nat (length (filter (tech_match (techLower_of o)) (s_techKeywords s)))) /\
  tech_match (map toLowerCase ["React"]) "React" = true /\
  tech_match (map toLowerCase ["react"]) "React" = true /\
  tech_match (map toLowerCase ["TypeScript 5"]) "TypeScript" = true.
Proof.
  split; [|split; [|split; [|split; [|split]]]].
  - intros techStack keyword; unfold tech_match; rewrite existsb_exists; split.
    + intros [t [Ht H]]; apply in_map_iff in Ht as [t0 [<- Ht0]].
      exists t0; split; [exact Ht0|].
      apply orb_true_iff in H as [H|H]; [left|right]; apply includes_spec, H.
    + intros [t0 [Ht0 H]]; exists (toLowerCase t0); split; [apply in_map, Ht0|].
      apply orb_true_iff; destruct H as [H|H]; [left|right]; apply includes_spec, H.
  - intros o a; unfold agent_score; rewrite !score_entry_decomp; simpl; lia.
  - intros o s; unfold skill_score; rewrite !score_entry_decomp; simpl; lia.
  - reflexivity.
  - reflexivity.
  - reflexivity.
Qed.

(** C7: an entry whose [relevantProjectTypes] contains "*" gets the +10
    project-type bonus for every [projectType], recognised or not: its score
    is 10 plus the score it would have with no project-type signal. *)
Theorem wildcard_project_bonus :
  (forall o a, In "*" (relevantProjectTypes a) ->
     agent_score o a
     = 10 + score_entry (projectType_of o) (techLower_of o) (intentLower_of o)
              [] (techKeywords a) (tags a) (priority a)) /\
  (forall o s, In "*" (s_relevantProjectTypes s) ->
     skill_score o s
     = 10 + score_entry (projectType_of o) (techLower_of o) (intentLower_of o)
              [] (s_techKeywords s) (s_tags s) (s_priority s)).
Proof.
  split; intros o e He; apply array_includes_In in He;
    [unfold agent_score|unfold skill_score]; rewrite !score_entry_decomp, He;
    cbn [orb array_includes existsb]; lia.
Qed.

Lemma wildcard_project_bonus_witness :
  agent_score opts_unknown (nth 0 AGENT_REGISTRY agent_default)
  = 10 + score_entry "unknown-type" [] "" []
           (techKeywords (nth 0 AGENT_REGISTRY agent_default))
           (tags (nth 0 AGENT_REGISTRY agent_default))
           (priority (nth 0 AGENT_REGISTRY agent_default)).
Proof.
  apply (proj1 wildcard_project_bonus).
  apply array_includes_In; vm_compute; reflexivity.
Defined.

(** ** Claims about [listCategories] *)

Lemma set_add_In (set : list string) (c x : string) :
  In x (set_add set c) <-> In x set \/ x = c.
Proof.
  unfold set_add; destruct (array_includes set c) eqn:E.
  - apply array_includes_In in E; split; [now left|intros [H| ->]; assumption].
  - rewrite in_app_iff; simpl; split; intros [H|H]; intuition.
Qed.

Lemma fold_set_add_In (cs set : list string) (x : string) :
  In x (fold_left set_add cs set) <-> In x set \/ In x cs.
Proof.
  revert set; induction cs as [|c cs IH]; intros set; simpl.
  - intuition.
  - rewrite IH, set_add_In; intuition.
Qed.

Lemma collect_categories_In {A} (cats : A -> list string) (reg : list A) (x : string) :
  In x (collect_categories cats reg) <-> exists a, In a reg /\ In x (cats a).
Proof.
  unfold collect_categories.
  assert (G : forall acc,
             In x (fold_left (fun set a => fold_left set_add (cats a) set) reg acc)
             <-> In x acc \/ exists a, In a reg /\ In x (cats a)).
  { induction reg as [|a reg IH]; intros acc; simpl.
    - split; [now left|intros [H|[a [[] _]]]; exact H].
    - rewrite IH, fold_set_add_In; split.
      + intros [[H|H]|[b [Hb H]]]; [now left|right; exists a; auto|right; exists b; auto].
      + intros [H|[b [[<-|Hb] H]]]; [left; left; exact H|left; right; exact H|].
        right; exists b; auto. }
  rewrite G; simpl; intuition.
Qed.

Lemma insert_str_perm (x : string) (l : list string) :
  Permutation (insert_str x l) (x :: l).
Proof.
  induction l as [|y l IH]; simpl; [reflexivity|].
  destruct (String.leb x y); [reflexivity|].
  rewrite IH; apply perm_swap.
Qed.

Lemma sort_str_perm (l : list string) : Permutation (sort_str l) l.
Proof.
  induction l as [|x l IH]; simpl; [reflexivity|].
  rewrite insert_str_perm, IH; reflexivity.
Qed.

(** C9: each list of [listCategories()] is duplicate-free, strictly
    increasing in lexicographic order, and holds exactly the categories
    used by some entry of its registry. *)
Theorem listCategories_sorted_distinct_complete :
  NoDup (fst listCategories) /\
  Sorted (fun x y => String.compare x y = Lt) (fst listCategories) /\
  (forall c, In c (fst listCategories) <->
             exists a, In a AGENT_REGISTRY /\ In c (categories a)) /\
  NoDup (snd listCategories) /\
  Sorted (fun x y => String.compare x y = Lt) (snd listCategories) /\
  (forall c, In c (snd listCategories) <->
             exists s, In s SKILL_REGISTRY /\ In c (s_categories s)).
Proof.
  split; [apply nodup_str_NoDup; vm_compute; reflexivity|].
  split; [apply sorted_lt_str_Sorted; vm_compute; reflexivity|].
  split; [intros c; unfold listCategories; cbn [fst]; rewrite <- collect_categories_In;
          split; apply Permutation_in; [|symmetry]; apply sort_str_perm|].
  split; [apply nodup_str_NoDup; vm_compute; reflexivity|].
  split; [apply sorted_lt_str_Sorted; vm_compute; reflexivity|].
  intros c; unfold listCategories; cbn [snd]; rewrite <- collect_categories_In;
    split; apply Permutation_in; [|symmetry]; apply sort_str_perm.
Qed.

(** ** Ranking order: sortedness, top-k, caps *)

Section RankOrder.
Local Open Scope list_scope.
Context {A : Type} (score : A -> Z).

Let pairs (reg : list A) := map (fun e => (e, score e)) reg.
Let keep := fun s : A * Z => 0 <? snd s.
Let desc := fun p q : A * Z => snd q <= snd p.

Lemma HdRel_insert_desc (y x : A * Z) l :
  HdRel desc y l -> desc y x -> HdRel desc y (insert_desc x l).
Proof.
  intros H Hyx; destruct l as [|z l]; simpl; [constructor; exact Hyx|].
  destruct (snd z <=? snd x); constructor; [exact Hyx|].
  inversion H; assumption.
Qed.

Lemma insert_desc_sorted (x : A * Z) l :
  Sorted desc l -> Sorted desc (insert_desc x l).
Proof.
  induction l as [|y l IH]; simpl; intros H; [repeat constructor|].
  destruct (Z.leb_spec (snd y) (snd x)) as [Hle|Hlt].
  - constructor; [exact H|constructor; unfold desc; lia].
  - inversion H as [|? ? Hl Hy]; subst.
    constructor; [exact (IH Hl)|].
    apply HdRel_insert_desc; [exact Hy|unfold desc; lia].
Qed.

Lemma sort_desc_sorted l : Sorted desc (sort_desc l).
Proof.
  induction l as [|x l IH]; simpl; [constructor|].
  apply insert_desc_sorted, IH.
Qed.

Lemma Sorted_firstn {B} (R : B -> B -> Prop) n (l : list B) :
  Sorted R l -> Sorted R (firstn n l).
Proof.
  revert n; induction l as [|x l IH]; intros n H; destruct n; simpl; try constructor.
  - inversion H as [|? ? Hl Hx]; subst; exact (IH n Hl).
  - inversion H as [|? ? Hl Hx]; subst.
    destruct l as [|y l], n; simpl; constructor.
    inversion Hx; assumption.
Qed.

Lemma Sorted_map_fst (l : list (A * Z)) :
  (forall p, In p l -> snd p = score (fst p)) ->
  Sorted desc l -> Sorted (fun a b => score b <= score a) (map fst l).
Proof.
  induction l as [|p l IH]; intros Hs H; simpl; [constructor|].
  inversion H as [|? ? Hl Hp]; subst.
  constructor; [apply IH; [intros q Hq; apply Hs; right; exact Hq|exact Hl]|].
  destruct l as [|q l]; simpl; constructor.
  inversion Hp as [|? ? Hpq]; subst; unfold desc in Hpq.
  rewrite <- (Hs p (or_introl eq_refl)), <- (Hs q (or_intror (or_introl eq_refl))).
  exact Hpq.
Qed.

Lemma slice0_is_firstn {B} n (l : list B) : exists k, slice0 n l = firstn k l.
Proof. unfold slice0; destruct (n <? 0); eexists; reflexivity. Qed.

Lemma sort_desc_scores (reg : list A) p :
  In p (sort_desc (filter keep (pairs reg))) -> snd p = score (fst p) /\ In (fst p) reg.
Proof.
  intros Hp; apply (Permutation_in _ (sort_desc_perm _)) in Hp.
  apply filter_In in Hp as [Hp _]; apply in_map_iff in Hp as [e [<- He]].
  split; [reflexivity|exact He].
Qed.

Lemma rank_sorted (max : Z) (reg : list A) :
  Sorted (fun a b => score b <= score a) (rank score max reg).
Proof.
  unfold rank; fold keep; fold (pairs reg).
  destruct (slice0_is_firstn max (sort_desc (filter keep (pairs reg)))) as [k ->].
  apply Sorted_map_fst.
  - intros p Hp; apply (sort_desc_scores reg p).
    rewrite <- (firstn_skipn k); apply in_or_app; left; exact Hp.
  - apply Sorted_firstn, sort_desc_sorted.
Qed.

Lemma StronglySorted_app_rel {B} (R : B -> B -> Prop) (l1 l2 : list B) x y :
  StronglySorted R (l1 ++ l2) -> In x l1 -> In y l2 -> R x y.
Proof.
  induction l1 as [|z l1 IH]; simpl; intros H Hx Hy; [destruct Hx|].
  inversion H as [|? ? Hs Hz]; subst.
  destruct Hx as [<-|Hx].
  - rewrite Forall_forall in Hz; apply Hz, in_or_app; right; exact Hy.
  - exact (IH Hs Hx Hy).
Qed.

(** Top-k: an entry of positive score left out of the result scores no
    more than any entry in it. *)
Lemma rank_topk (max : Z) (reg : list A) (a b : A) :
  In a reg -> 0 < score a -> ~ In a (rank score max reg) ->
  In b (rank score max reg) -> score a <= score b.
Proof.
  intros Ha Hpos Hout Hb; unfold rank in Hout, Hb.
  fold keep in Hout, Hb; fold (pairs reg) in Hout, Hb.
  set (L := sort_desc (filter keep (pairs reg))) in Hout, Hb.
  destruct (slice0_is_firstn max L) as [k Hk]; rewrite Hk in Hout, Hb.
  assert (HaL : In (a, score a) L).
  { apply (Permutation_in _ (Permutation_sym (sort_desc_perm _))), filter_In.
    split; [apply in_map_iff; exists a; split; [reflexivity|exact Ha]|].
    apply Z.ltb_lt; exact Hpos. }
  assert (Hskip : In (a, score a) (skipn k L)).
  { rewrite <- (firstn_skipn k L) in HaL; apply in_app_or in HaL as [H|H]; [|exact H].
    exfalso; apply Hout; apply in_map_iff; exists (a, score a); split; [reflexivity|exact H]. }
  apply in_map_iff in Hb as [pb [Eb Hpb]].
  assert (Es : snd pb = score (fst pb)).
  { apply (sort_desc_scores reg pb); fold L.
    rewrite <- (firstn_skipn k L); apply in_or_app; left; exact Hpb. }
  assert (HS : StronglySorted desc (firstn k L ++ skipn k L)).
  { rewrite firstn_skipn; apply Sorted_StronglySorted; [|apply sort_desc_sorted].
    intros p q r Hpq Hqr; unfold desc in *; lia. }
  pose proof (StronglySorted_app_rel _ _ _ _ _ HS Hpb Hskip) as H; unfold desc in H.
  simpl in H; rewrite Es, Eb in H; exact H.
Qed.

(** A smaller non-negative cap yields a prefix of the longer result. *)
Lemma rank_cap_prefix (m n : Z) (reg : list A) :
  0 <= m <= n -> rank score m reg = firstn (Z.to_nat m) (rank score n reg).
Proof.
  intros Hmn; unfold rank.
  rewrite !slice0_firstn by lia.
  rewrite <- !firstn_map, firstn_firstn.
  f_equal; lia.
Qed.

(** A negative cap [m] counts from the end of the scored list. *)
Lemma rank_cap_negative (m : Z) (reg : list A) :
  (forall e, In e reg -> 0 < score e) -> m < 0 ->
  rank score m reg = rank score (Z.max 0 (Z.of_nat (length reg) + m)) reg.
Proof.
  intros Hpos Hm; unfold rank; fold keep; fold (pairs reg).
  rewrite (slice0_firstn (Z.max 0 _)) by lia.
  unfold slice0; destruct (Z.ltb_spec m 0) as [_|]; [|lia].
  rewrite (Permutation_length (sort_desc_perm _)).
  assert (E : filter keep (pairs reg) = pairs reg).
  { unfold keep, pairs; clear keep pairs desc; induction reg as [|e reg IH]; simpl;
      [reflexivity|].
    destruct (Z.ltb_spec 0 (score e)) as [_|Hn].
    - rewrite IH; [reflexivity|intros e' He'; apply Hpos; right; exact He'].
    - specialize (Hpos e (or_introl eq_refl)); lia. }
  rewrite E; unfold pairs at 1; rewrite length_map.
  f_equal; f_equal; lia.
Qed.

Lemma rank_NoDup_map {B} (g : A -> B) (max : Z) (reg : list A) :
  NoDup (map g reg) -> NoDup (map g (rank score max reg)).
Proof.
  intros H; unfold rank; fold keep; fold (pairs reg); rewrite map_map.
  assert (Hs : NoDup (map (fun p => g (fst p)) (sort_desc (filter keep (pairs reg))))).
  { apply (Permutation_NoDup (Permutation_map _ (Permutation_sym (sort_desc_perm _)))).
    apply NoDup_map_filter; unfold pairs; rewrite map_map; exact H. }
  destruct (slice0_is_firstn max (sort_desc (filter keep (pairs reg)))) as [k ->].
  rewrite <- firstn_map; eapply NoDup_app_remove_r; rewrite firstn_skipn; exact Hs.
Qed.
End RankOrder.

Lemma notin_by_key {B} (k : B -> string) (x : B) (l : list B) :
  array_includes (map k l) (k x) = false -> ~ In x l.
Proof. intros H Hin; apply (in_map k), array_includes_In in Hin; congruence. Qed.

Lemma agent_score_pos_lt o a : In a AGENT_REGISTRY -> 0 < agent_score o a.
Proof. intros Ha; pose proof (agent_score_pos o a Ha); lia. Qed.

Lemma skill_score_pos_lt o s : In s SKILL_REGISTRY -> 0 < skill_score o s.
Proof. intros Hs; pose proof (skill_score_pos o s Hs); lia. Qed.

(** X1: both recommended lists are ordered by non-increasing score. *)
Theorem recommend_sorted (o : RecommendOptions) :
  Sorted (fun a b => agent_score o b <= agent_score o a) (agents (recommendAgentSkills o)) /\
  Sorted (fun s t => skill_score o t <= skill_score o s) (skills (recommendAgentSkills o)).
Proof. split; apply rank_sorted. Qed.

(** X2: the recommendation is a top-k selection: a registry entry that is
    not recommended scores no more than any entry that is. *)
Theorem recommend_topk (o : RecommendOptions) :
  (forall a b, In a AGENT_REGISTRY -> ~ In a (agents (recommendAgentSkills o)) ->
     In b (agents (recommendAgentSkills o)) -> agent_score o a <= agent_score o b) /\
  (forall s t, In s SKILL_REGISTRY -> ~ In s (skills (recommendAgentSkills o)) ->
     In t (skills (recommendAgentSkills o)) -> skill_score o s <= skill_score o t).
Proof.
  split.
  - intros a b Ha Hout Hb; apply (rank_topk (agent_score o) (maxAgents_of o) AGENT_REGISTRY);
      [exact Ha|apply agent_score_pos_lt, Ha|exact Hout|exact Hb].
  - intros s t Hs Hout Ht; apply (rank_topk (skill_score o) (maxSkills_of o) SKILL_REGISTRY);
      [exact Hs|apply skill_score_pos_lt, Hs|exact Hout|exact Ht].
Qed.

Lemma recommend_topk_witness :
  agent_score no_options (nth 49 AGENT_REGISTRY agent_default)
  <= agent_score no_options (nth 0 (agents (recommendAgentSkills no_options)) agent_default).
Proof.
  apply (proj1 (recommend_topk no_options)).
  - apply nth_In, Nat.ltb_lt; vm_compute; reflexivity.
  - apply (notin_by_key id); vm_compute; reflexivity.
  - apply nth_In, Nat.ltb_lt; vm_compute; reflexivity.
Defined.

(** X3: lowering a non-negative cap truncates the result: the entries
    recommended under the smaller cap are the first ones recommended under
    the larger cap. *)
Theorem recommend_cap_prefix (o : RecommendOptions) (ma ms ma' ms' : Z) :
  0 <= ma <= ma' -> 0 <= ms <= ms' ->
  agents (recommendAgentSkills (with_caps o ma ms))
  = firstn (Z.to_nat ma) (agents (recommendAgentSkills (with_caps o ma' ms'))) /\
  skills (recommendAgentSkills (with_caps o ma ms))
  = firstn (Z.to_nat ms) (skills (recommendAgentSkills (with_caps o ma' ms'))).
Proof.
  intros Ha Hs; split.
  - exact (rank_cap_prefix (agent_score o) ma ma' AGENT_REGISTRY Ha).
  - exact (rank_cap_prefix (skill_score o) ms ms' SKILL_REGISTRY Hs).
Qed.

Lemma recommend_cap_prefix_witness :
  agents (recommendAgentSkills (with_caps no_options 3 4))
  = firstn 3 (agents (recommendAgentSkills (with_caps no_options 8 12))) /\
  skills (recommendAgentSkills (with_caps no_options 3 4))
  = firstn 4 (skills (recommendAgentSkills (with_caps no_options 8 12))).
Proof. apply (recommend_cap_prefix no_options 3 4 8 12); lia. Defined.

(** X4: edge caps.  A cap of 0 gives an empty list; a negative cap [-k]
    (as [slice(0, -k)]) drops the last [k] of the 50 agents or 42 skills,
    and gives an empty list once [k] reaches the registry size. *)
Theorem recommend_edge_caps (o : RecommendOptions) (ma ms : Z) :
  agents (recommendAgentSkills (with_caps o 0 ms)) = [] /\
  skills (recommendAgentSkills (with_caps o ma 0)) = [] /\
  (ma < 0 -> agents (recommendAgentSkills (with_caps o ma ms))
             = agents (recommendAgentSkills (with_caps o (Z.max 0 (50 + ma)) ms))) /\
  (ms < 0 -> skills (recommendAgentSkills (with_caps o ma ms))
             = skills (recommendAgentSkills (with_caps o ma (Z.max 0 (42 + ms))))).
Proof.
  assert (La : Z.of_nat (length AGENT_REGISTRY) = 50) by (vm_compute; reflexivity).
  assert (Ls : Z.of_nat (length SKILL_REGISTRY) = 42) by (vm_compute; reflexivity).
  split; [|split; [|split]].
  - unfold recommendAgentSkills, rank; cbn [agents maxAgents_of with_caps o_maxAgents].
    rewrite slice0_firstn by lia; reflexivity.
  - unfold recommendAgentSkills, rank; cbn [skills maxSkills_of with_caps o_maxSkills].
    rewrite slice0_firstn by lia; reflexivity.
  - intros Hm; rewrite <- La.
    exact (rank_cap_negative (agent_score o) ma AGENT_REGISTRY
             (agent_score_pos_lt o) Hm).
  - intros Hm; rewrite <- Ls.
    exact (rank_cap_negative (skill_score o) ms SKILL_REGISTRY
             (skill_score_pos_lt o) Hm).
Qed.

Lemma recommend_edge_caps_witness :
  agents (recommendAgentSkills (with_caps no_options (-45) 0))
  = agents (recommendAgentSkills (with_caps no_options 5 0)) /\
  skills (recommendAgentSkills (with_caps no_options 0 (-40)))
  = skills (recommendAgentSkills (with_caps no_options 0 2)).
Proof.
  split.
  - apply (proj1 (proj2 (proj2 (recommend_edge_caps no_options (-45) 0)))); lia.
  - apply (proj2 (proj2 (proj2 (recommend_edge_caps no_options 0 (-40))))); lia.
Defined.

(** ** String append: length and cancellation *)

Lemma str_append_assoc (a b c : string) : (a ++ b) ++ c = a ++ (b ++ c).
Proof. induction a as [|x a IH]; simpl; [reflexivity|rewrite IH; reflexivity]. Qed.

Lemma str_length_append (a b : string) :
  String.length (a ++ b) = (String.length a + String.length b)%nat.
Proof. induction a as [|x a IH]; simpl; [reflexivity|rewrite IH; reflexivity]. Qed.

Lemma str_append_same_length (a b c d : string) :
  a ++ b = c ++ d -> String.length a = String.length c -> a = c /\ b = d.
Proof.
  revert c; induction a as [|x a IH]; intros c E L; destruct c as [|y c];
    simpl in *; try discriminate; [split; [reflexivity|exact E]|].
  injection E as -> E; injection L as L.
  destruct (IH c E L) as [-> ->]; split; reflexivity.
Qed.

Lemma str_append_cancel_l (a b c : string) : a ++ b = a ++ c -> b = c.
Proof. intros E; apply (str_append_same_length a b a c E eq_refl). Qed.

Lemma str_append_cancel_r (a b s : string) : a ++ s = b ++ s -> a = b.
Proof.
  intros E.
  assert (L : String.length a = String.length b).
  { apply (f_equal String.length) in E; rewrite !str_length_append in E.
    apply Nat.add_cancel_r in E; exact E. }
  apply (str_append_same_length a s b s E L).
Qed.

Lemma toLowerCase_length (s : string) : String.length (toLowerCase s) = String.length s.
Proof. induction s as [|c s IH]; simpl; [reflexivity|rewrite IH; reflexivity]. Qed.

(** Whatever occurs in a lower-cased string is itself lower-case. *)
Lemma includes_lower_stable (u t : string) :
  includes (toLowerCase u) t = true -> toLowerCase t = t.
Proof.
  intros H; apply includes_spec in H as [p [r E]].
  assert (E' : toLowerCase u = toLowerCase p ++ toLowerCase t ++ toLowerCase r).
  { rewrite <- toLowerCase_idem, E, !toLowerCase_app; reflexivity. }
  rewrite E' in E.
  apply str_append_same_length in E as [_ E]; [|apply toLowerCase_length].
  apply str_append_same_length in E as [E _]; [|apply toLowerCase_length].
  exact E.
Qed.

(** A substring of [x] is a substring of any string containing [x]. *)
Lemma includes_widen (p x r t : string) :
  includes (toLowerCase x) t = true -> includes (toLowerCase (p ++ x ++ r)) t = true.
Proof.
  intros H; apply includes_spec in H as [p1 [r1 E]]; apply includes_spec.
  exists (toLowerCase p ++ p1), (r1 ++ toLowerCase r).
  rewrite !toLowerCase_app, E, !str_append_assoc; reflexivity.
Qed.

(** ** Scores as functions of the request *)

Lemma filter_length_mono {B} (f g : B -> bool) (l : list B) :
  (forall x, In x l -> f x = true -> g x = true) ->
  (length (filter f l) <= length (filter g l))%nat.
Proof.
  induction l as [|x l IH]; intros H; simpl; [lia|].
  assert (IH' : (length (filter f l) <= length (filter g l))%nat)
    by (apply IH; intros y Hy; apply H; right; exact Hy).
  destruct (f x) eqn:Ef.
  - rewrite (H x (or_introl eq_refl) Ef); simpl; lia.
  - destruct (g x); simpl; lia.
Qed.

Lemma filter_length_restrict {B} (f g : B -> bool) (l : list B) :
  (forall x, f x = true -> g x = true) ->
  length (filter f l) = length (filter f (filter g l)).
Proof.
  intros H; induction l as [|x l IH]; simpl; [reflexivity|].
  destruct (f x) eqn:Ef.
  - rewrite (H x Ef); simpl; rewrite Ef, IH; reflexivity.
  - destruct (g x); simpl; [rewrite Ef|]; exact IH.
Qed.

Lemma tech_match_incl (ts ts' : list string) (kw : string) :
  incl ts ts' ->
  tech_match (map toLowerCase ts) kw = true -> tech_match (map toLowerCase ts') kw = true.
Proof.
  unfold tech_match; rewrite !existsb_exists; intros Hi [t [Ht H]].
  apply in_map_iff in Ht as [t0 [<- Ht0]].
  exists (toLowerCase t0); split; [apply in_map, Hi, Ht0|exact H].
Qed.

Lemma score_entry_mono pt ts ts' u p r rpt kws tgs prio :
  incl ts ts' ->
  score_entry pt (map toLowerCase ts) (toLowerCase u) rpt kws tgs prio
  <= score_entry pt (map toLowerCase ts') (toLowerCase (p ++ u ++ r)) rpt kws tgs prio.
Proof.
  intros Hi; rewrite !score_entry_decomp.
  pose proof (filter_length_mono (tech_match (map toLowerCase ts))
                (tech_match (map toLowerCase ts')) kws
                (fun k _ => tech_match_incl ts ts' k Hi)).
  pose proof (filter_length_mono (includes (toLowerCase u))
                (includes (toLowerCase (p ++ u ++ r))) tgs
                (fun t _ => includes_widen p u r t)).
  lia.
Qed.

Lemma lower_tags_agree (tags : list string) :
  forallb (fun t => String.eqb (toLowerCase t) t) tags = true ->
  forall q, existsb (fun t => includes t q) tags = true <->
            exists t, In t tags /\ is_substring q (toLowerCase t).
Proof.
  intros Hl q; rewrite existsb_exists; rewrite forallb_forall in Hl; split.
  - intros [t [Ht H]]; exists t; split; [exact Ht|].
    rewrite (proj1 (String.eqb_eq _ _) (Hl t Ht)); apply includes_spec, H.
  - intros [t [Ht H]]; exists t; split; [exact Ht|].
    rewrite (proj1 (String.eqb_eq _ _) (Hl t Ht)) in H; apply includes_spec, H.
Qed.

Lemma agent_fields_lower a :
  In a AGENT_REGISTRY ->
  forallb (fun t => String.eqb (toLowerCase t) t) (tags a) = true /\
  forallb (fun t => String.eqb (toLowerCase t) t) (categories a) = true.
Proof.
  intros Ha.
  assert (H : forallb (fun a => forallb (fun t => String.eqb (toLowerCase t) t) (tags a)
                        && forallb (fun t => String.eqb (toLowerCase t) t) (categories a))
                AGENT_REGISTRY = true) by (vm_compute; reflexivity).
  rewrite forallb_forall in H; apply andb_true_iff, H, Ha.
Qed.

Lemma skill_fields_lower s :
  In s SKILL_REGISTRY ->
  forallb (fun t => String.eqb (toLowerCase t) t) (s_tags s) = true /\
  forallb (fun t => String.eqb (toLowerCase t) t) (s_categories s) = true.
Proof.
  intros Hs.
  assert (H : forallb (fun s => forallb (fun t => String.eqb (toLowerCase t) t) (s_tags s)
                        && forallb (fun t => String.eqb (toLowerCase t) t) (s_categories s))
                SKILL_REGISTRY = true) by (vm_compute; reflexivity).
  rewrite forallb_forall in H; apply andb_true_iff, H, Hs.
Qed.

(** X5: scores are monotone in the request: with the same [projectType],
    a tech stack that contains the old one and an intent that contains the
    old intent as a substring, no agent or skill scores less. *)
Theorem score_monotone (o o' : RecommendOptions) :
  projectType_of o = projectType_of o' ->
  incl (techStack_of o) (techStack_of o') ->
  is_substring (userIntent_of o) (userIntent_of o') ->
  (forall a, agent_score o a <= agent_score o' a) /\
  (forall s, skill_score o s <= skill_score o' s).
Proof.
  intros Hp Hi [p [r Hu]].
  split; [intros a; unfold agent_score|intros s; unfold skill_score];
    unfold techLower_of, intentLower_of; rewrite Hp, Hu; apply score_entry_mono, Hi.
Qed.

Lemma score_monotone_witness :
  agent_score
    {| o_projectType := Some "web-frontend"; o_techStack := Some ["React"];
       o_userIntent := Some "test"; o_maxAgents := None; o_maxSkills := None |}
    (nth 0 AGENT_REGISTRY agent_default)
  <= agent_score
    {| o_projectType := Some "web-frontend"; o_techStack := Some ["React"; "TypeScript"];
       o_userIntent := Some "unit test and refactor"; o_maxAgents := None;
       o_maxSkills := None |}
    (nth 0 AGENT_REGISTRY agent_default).
Proof.
  eapply (proj1 (score_monotone _ _ _ _ _)).
  Unshelve.
  - reflexivity.
  - intros x Hx; simpl in *; tauto.
  - exists "unit ", " and refactor"; reflexivity.
Defined.

(** X6: on the shipped registries, search returns exactly the entries for
    which the lower-cased query is a substring of the lower-cased name,
    description, some tag or some category (the tags and categories are
    all lower-case, so testing them unlowered loses nothing). *)
Theorem search_exact (query : string) :
  (forall a, In a (agents (searchAgentSkills query)) <->
     In a AGENT_REGISTRY /\
     mentions (toLowerCase query) (name a) (description a) (tags a) (categories a)) /\
  (forall s, In s (skills (searchAgentSkills query)) <->
     In s SKILL_REGISTRY /\
     mentions (toLowerCase query) (s_name s) (s_description s) (s_tags s) (s_categories s)).
Proof.
  split.
  - intros a; unfold searchAgentSkills; cbn [agents]; rewrite filter_In; split.
    + intros [Ha H]; split; [exact Ha|apply agent_matches_sound, H].
    + intros [Ha H]; split; [exact Ha|].
      destruct (agent_fields_lower a Ha) as [Lt Lc].
      unfold agent_matches; rewrite !orb_true_iff.
      destruct H as [H|[H|[H|H]]].
      * left; left; left; apply includes_spec, H.
      * left; left; right; apply includes_spec, H.
      * left; right; apply (lower_tags_agree _ Lt), H.
      * right; apply (lower_tags_agree _ Lc), H.
  - intros s; unfold searchAgentSkills; cbn [skills]; rewrite filter_In; split.
    + intros [Hs H]; split; [exact Hs|apply skill_matches_sound, H].
    + intros [Hs H]; split; [exact Hs|].
      destruct (skill_fields_lower s Hs) as [Lt Lc].
      unfold skill_matches; rewrite !orb_true_iff.
      destruct H as [H|[H|[H|H]]].
      * left; left; left; apply includes_spec, H.
      * left; left; right; apply includes_spec, H.
      * left; right; apply (lower_tags_agree _ Lt), H.
      * right; apply (lower_tags_agree _ Lc), H.
Qed.

(** X7: the intent signal tests each tag, unlowered, against the
    lower-cased intent, so a tag that lower-casing changes (one with an
    upper-case letter) never adds to the score: dropping all such tags
    leaves every score unchanged. *)
Theorem intent_tags_lowercase_only :
  (forall o a,
     agent_score o a
     = score_entry (projectType_of o) (techLower_of o) (intentLower_of o)
         (relevantProjectTypes a) (techKeywords a)
         (filter (fun t => String.eqb (toLowerCase t) t) (tags a)) (priority a)) /\
  (forall o s,
     skill_score o s
     = score_entry (projectType_of o) (techLower_of o) (intentLower_of o)
         (s_relevantProjectTypes s) (s_techKeywords s)
         (filter (fun t => String.eqb (toLowerCase t) t) (s_tags s)) (s_priority s)).
Proof.
  assert (K : forall o t, includes (intentLower_of o) t = true ->
                          String.eqb (toLowerCase t) t = true).
  { intros o t H; apply String.eqb_eq, (includes_lower_stable (userIntent_of o)), H. }
  split; intros o e; [unfold agent_score|unfold skill_score]; rewrite !score_entry_decomp;
    rewrite <- (filter_length_restrict _ _ _ (K o)); reflexivity.
Qed.

(** ** The agent-skills file generator *)

Lemma NoDup_map_inj {B C} (f : B -> C) (l : list B) :
  (forall x y, f x = f y -> x = y) -> NoDup l -> NoDup (map f l).
Proof.
  intros Hf H; induction H as [|x l Hx H IH]; simpl; constructor; [|exact IH].
  intros Hin; apply in_map_iff in Hin as [y [E Hy]]; apply Hf in E; subst; contradiction.
Qed.

Lemma skill_path_inj (a b : string) :
  ".github/skills/" ++ a ++ "/SKILL.md" = ".github/skills/" ++ b ++ "/SKILL.md" -> a = b.
Proof. intros E; apply str_append_cancel_l, str_append_cancel_r in E; exact E. Qed.

Lemma agent_path_inj (a b : string) :
  ".github/agents/" ++ a ++ ".agent.md" = ".github/agents/" ++ b ++ ".agent.md" -> a = b.
Proof. intros E; apply str_append_cancel_l, str_append_cancel_r in E; exact E. Qed.

Lemma skill_agent_paths_differ (a b : string) :
  ".github/skills/" ++ a ++ "/SKILL.md" <> ".github/agents/" ++ b ++ ".agent.md".
Proof. simpl; discriminate. Qed.

Lemma skill_index_paths_differ (a : string) :
  ".github/skills/" ++ a ++ "/SKILL.md" <> ".github/AGENT-SKILLS.md".
Proof. simpl; discriminate. Qed.

Lemma agent_index_paths_differ (a : string) :
  ".github/agents/" ++ a ++ ".agent.md" <> ".github/AGENT-SKILLS.md".
Proof. simpl; discriminate. Qed.

Lemma skill_file_paths (buildSkillMd : SkillEntry -> string) (ss : list SkillEntry) :
  map relativePath
    (map (fun skill => {| relativePath := skill_file_path skill;
                          content := buildSkillMd skill |}) ss)
  = map (fun i => ".github/skills/" ++ i ++ "/SKILL.md") (map s_id ss).
Proof. rewrite !map_map; reflexivity. Qed.

Lemma agent_file_paths (buildAgentMd : AgentEntry -> string) (as_ : list AgentEntry) :
  map relativePath
    (map (fun agent => {| relativePath := agent_file_path agent;
                          content := buildAgentMd agent |}) as_)
  = map (fun i => ".github/agents/" ++ i ++ ".agent.md") (map id as_).
Proof. rewrite !map_map; reflexivity. Qed.

Lemma skill_agent_disjoint (xs ys : list string) p :
  In p (map (fun i => ".github/skills/" ++ i ++ "/SKILL.md") xs) ->
  ~ In p (map (fun i => ".github/agents/" ++ i ++ ".agent.md") ys).
Proof.
  intros H1 H2; apply in_map_iff in H1 as [x [<- _]]; apply in_map_iff in H2 as [y [E _]].
  exact (skill_agent_paths_differ x y (eq_sym E)).
Qed.

Lemma selected_paths_NoDup (ids_s ids_a : list string) :
  NoDup ids_s -> NoDup ids_a ->
  NoDup (app (map (fun i => ".github/skills/" ++ i ++ "/SKILL.md") ids_s)
             (map (fun i => ".github/agents/" ++ i ++ ".agent.md") ids_a)).
Proof.
  intros Hs Ha; apply NoDup_app.
  - apply NoDup_map_inj; [exact skill_path_inj|exact Hs].
  - apply NoDup_map_inj; [exact agent_path_inj|exact Ha].
  - intros p Hp; exact (skill_agent_disjoint _ _ p Hp).
Qed.

Lemma skill_ids_NoDup : NoDup (map s_id SKILL_REGISTRY).
Proof. apply nodup_str_NoDup; vm_compute; reflexivity. Qed.

Lemma agent_ids_NoDup : NoDup (map id AGENT_REGISTRY).
Proof. apply nodup_str_NoDup; vm_compute; reflexivity. Qed.

Lemma recommend_skill_ids_NoDup o : NoDup (map s_id (skills (recommendAgentSkills o))).
Proof. exact (rank_NoDup_map (skill_score o) s_id (maxSkills_of o) SKILL_REGISTRY skill_ids_NoDup). Qed.

Lemma recommend_agent_ids_NoDup o : NoDup (map id (agents (recommendAgentSkills o))).
Proof. exact (rank_NoDup_map (agent_score o) id (maxAgents_of o) AGENT_REGISTRY agent_ids_NoDup). Qed.

Lemma generate_paths b1 b2 ib params options :
  map relativePath (generateAgentSkills b1 b2 ib params options)
  = app (app (map (fun i => ".github/skills/" ++ i ++ "/SKILL.md")
               (map s_id (skills (recommendAgentSkills (generate_request params options)))))
             (map (fun i => ".github/agents/" ++ i ++ ".agent.md")
               (map id (agents (recommendAgentSkills (generate_request params options))))))
        [".github/AGENT-SKILLS.md"].
Proof.
  unfold generateAgentSkills; cbv zeta.
  rewrite !map_app, skill_file_paths, agent_file_paths, app_assoc; reflexivity.
Qed.

(** X10: every file [generateAgentSkills] returns has its own path: no
    two SKILL.md files, no two .agent.md files, and neither kind clashes
    with the index [.github/AGENT-SKILLS.md]. *)
Theorem generate_paths_distinct (buildSkillMd : SkillEntry -> string)
    (buildAgentMd : AgentEntry -> string)
    (indexBody : list AgentEntry -> list SkillEntry -> WorkspaceInitParams -> string)
    (params : WorkspaceInitParams) (options : option GenerateOptions) :
  NoDup (map relativePath (generateAgentSkills buildSkillMd buildAgentMd indexBody params options)).
Proof.
  rewrite generate_paths; apply NoDup_app.
  - apply selected_paths_NoDup; [apply recommend_skill_ids_NoDup|apply recommend_agent_ids_NoDup].
  - repeat constructor; intros [].
  - intros p Hp [<-|[]]; apply in_app_or in Hp as [H|H]; apply in_map_iff in H as [i [E _]];
      revert E; [apply skill_index_paths_differ|apply agent_index_paths_differ].
Qed.





Lemma generate_paths_entries b1 b2 ib params options :
  map relativePath (generateAgentSkills b1 b2 ib params options)
  = app (app (map skill_file_path (skills (recommendAgentSkills (generate_request params options))))
             (map agent_file_path (agents (recommendAgentSkills (generate_request params options)))))
        [".github/AGENT-SKILLS.md"].
Proof.
  unfold generateAgentSkills; cbv zeta.
  rewrite !map_app, !map_map, app_assoc; reflexivity.
Qed.

Lemma recommend_default_layout o :
  maxAgents_of o = 8 -> maxSkills_of o = 12 ->
  length (skills (recommendAgentSkills o)) = 12%nat /\
  length (agents (recommendAgentSkills o)) = 8%nat /\
  incl (skills (recommendAgentSkills o)) SKILL_REGISTRY /\
  incl (agents (recommendAgentSkills o)) AGENT_REGISTRY.
Proof.
  intros Ha Hs; unfold recommendAgentSkills; cbn [skills agents].
  split; [|split; [|split]].
  - rewrite (rank_length (skill_score o) _ SKILL_REGISTRY); [|lia|apply skill_score_pos_lt].
    rewrite Hs; reflexivity.
  - rewrite (rank_length (agent_score o) _ AGENT_REGISTRY); [|lia|apply agent_score_pos_lt].
    rewrite Ha; reflexivity.
  - intros s Hs'; exact (In_rank _ _ _ s Hs').
  - intros a Ha'; exact (In_rank _ _ _ a Ha').
Qed.

(** X9: the agent-skills step of [collectFiles] adds nothing when
    [includeAgentSkills] is [false]; otherwise (also when it is omitted) it
    adds exactly 12 SKILL.md files for registry skills, then 8 .agent.md
    files for registry agents, then the index. *)
Theorem collectFiles_agent_skills_layout (buildSkillMd : SkillEntry -> string)
    (buildAgentMd : AgentEntry -> string)
    (indexBody : list AgentEntry -> list SkillEntry -> WorkspaceInitParams -> string)
    (params : WorkspaceInitParams) :
  (includeAgentSkills params = Some false ->
   collectFiles_agent_skills buildSkillMd buildAgentMd indexBody params = []) /\
  (includeAgentSkills params <> Some false ->
   exists ss as_,
     length ss = 12%nat /\ length as_ = 8%nat /\
     incl ss SKILL_REGISTRY /\ incl as_ AGENT_REGISTRY /\
     map relativePath (collectFiles_agent_skills buildSkillMd buildAgentMd indexBody params)
     = app (app (map skill_file_path ss) (map agent_file_path as_))
           [".github/AGENT-SKILLS.md"]).
Proof.
  unfold collectFiles_agent_skills; split; [intros ->; reflexivity|intros Hn].
  assert (K : forall intent,
    exists ss as_,
      length ss = 12%nat /\ length as_ = 8%nat /\
      incl ss SKILL_REGISTRY /\ incl as_ AGENT_REGISTRY /\
      map relativePath (generateAgentSkills buildSkillMd buildAgentMd indexBody params
                          (Some {| g_skillIds := None; g_agentIds := None;
                                   g_userIntent := intent;
                                   g_maxAgents := None; g_maxSkills := None |}))
      = app (app (map skill_file_path ss) (map agent_file_path as_))
            [".github/AGENT-SKILLS.md"]).
  { intros u; rewrite generate_paths_entries.
    destruct (recommend_default_layout
                (generate_request params
                   (Some {| g_skillIds := None; g_agentIds := None; g_userIntent := u;
                            g_maxAgents := None; g_maxSkills := None |})) eq_refl eq_refl)
      as [L1 [L2 [I1 I2]]].
    eexists; eexists; split; [exact L1|split; [exact L2|split; [exact I1|split; [exact I2|reflexivity]]]]. }
  destruct (includeAgentSkills params) as [[|]|]; [apply K|contradiction|apply K].
Qed.

Lemma collectFiles_agent_skills_layout_witness :
  exists ss as_,
    length ss = 12%nat /\ length as_ = 8%nat /\
    incl ss SKILL_REGISTRY /\ incl as_ AGENT_REGISTRY /\
    map relativePath
      (collectFiles_agent_skills (fun _ => "") (fun _ => "") (fun _ _ _ => "")
         {| workspaceName := "demo"; purpose := "REST API service";
            p_projectType := Some "api-server"; p_techStack := Some ["Node.js"];
            includeAgentSkills := Some true; agentSkillsIntent := None |})
    = app (app (map skill_file_path ss) (map agent_file_path as_))
          [".github/AGENT-SKILLS.md"].
Proof. apply (proj2 (collectFiles_agent_skills_layout _ _ _ _)); discriminate. Defined.

(** X11: [generateSelectedSkills] gives every file its own path exactly
    when the skill ids are distinct and the agent ids are distinct; a
    repeated id yields two files with the same path. *)
Theorem generateSelectedSkills_paths_distinct (buildSkillMd : SkillEntry -> string)
    (buildAgentMd : AgentEntry -> string)
    (skillEntries : list SkillEntry) (agentEntries : list AgentEntry) :
  NoDup (map relativePath
           (generateSelectedSkills buildSkillMd buildAgentMd skillEntries agentEntries))
  <-> NoDup (map s_id skillEntries) /\ NoDup (map id agentEntries).
Proof.
  unfold generateSelectedSkills; rewrite map_app, skill_file_paths, agent_file_paths.
  split.
  - intros H; split.
    + apply NoDup_app_remove_r in H.
      exact (NoDup_map_inv (fun i => ".github/skills/" ++ i ++ "/SKILL.md") _ H).
    + apply NoDup_app_remove_l in H.
      exact (NoDup_map_inv (fun i => ".github/agents/" ++ i ++ ".agent.md") _ H).
  - intros [Hs Ha]; apply selected_paths_NoDup; assumption.
Qed.


